(** * The finance tracker of [app.py]: forecast engine and validated updates

    A shallow embedding of [class FinanceTracker] (src/app.py): the two
    dataclasses, the add operations, [update_initial_balance], the
    day-by-day projection [generate_daily_forecast], the construction and
    loading of a tracker, and the callback [update_forecast].

    Conventions of the model.
    - Amounts and balances are Python [int]s, modelled by [Z]: the default
      transactions, the initial balance 0 of the application and whole
      numbers typed in the forms are [int]s, and their arithmetic is exact.
      Fractional amounts are binary64 [float]s; the one place where the code
      does arithmetic on them, the accumulation of a day's amounts, is
      modelled on binary64 in [Binary64].  NaN is outside the model.
    - [datetime] values are records of calendar fields; adding
      [timedelta(days=k)], [k >= 0], steps to the following calendar day [k]
      times.  The year bound of the library (9999) is not modelled.
    - The process environment is a [World]: the tracker object, the system
      clock read by [datetime.now()], the contents of [finance_data.json],
      and what was printed.  Methods are state transformers over [World]
      that either return or raise. *)

From Stdlib Require Import ZArith List String Ascii Bool Lia Permutation Sorted.
From Stdlib Require PrimFloat.
Import ListNotations.
Open Scope Z_scope.

(** ** Calendar: [datetime.date] *)

Module Date.

Record t : Type := mk { year : Z; month : Z; day : Z }.

Definition is_leap (y : Z) : bool :=
  (y mod 4 =? 0) && (negb (y mod 100 =? 0) || (y mod 400 =? 0)).

Definition days_in_month (y m : Z) : Z :=
  if m =? 2 then (if is_leap y then 29 else 28)
  else if (m =? 4) || (m =? 6) || (m =? 9) || (m =? 11) then 30
  else 31.

(** The values the library can construct. *)
Definition valid (d : t) : Prop :=
  1 <= year d /\ 1 <= month d <= 12 /\ 1 <= day d <= days_in_month (year d) (month d).

Definition validb (d : t) : bool :=
  (1 <=? year d) && (1 <=? month d) && (month d <=? 12)
  && (1 <=? day d) && (day d <=? days_in_month (year d) (month d)).

(** [d + timedelta(days=1)] *)
Definition tomorrow (d : t) : t :=
  if day d <? days_in_month (year d) (month d)
  then mk (year d) (month d) (day d + 1)
  else if month d <? 12
       then mk (year d) (month d + 1) 1
       else mk (year d + 1) 1 1.

(** [d + timedelta(days=k)] *)
Definition add_days (d : t) (k : nat) : t := Nat.iter k tomorrow d.

Definition eqb (a b : t) : bool :=
  (year a =? year b) && (month a =? month b) && (day a =? day b).

(** [a < b] and [a <= b]: comparison of (year, month, day). *)
Definition ltb (a b : t) : bool :=
  (year a <? year b)
  || ((year a =? year b)
      && ((month a <? month b) || ((month a =? month b) && (day a <? day b)))).

Definition leb (a b : t) : bool := negb (ltb b a).

(** [d.toordinal()]: the proleptic Gregorian ordinal, 0001-01-01 being 1
    (the library's [_ymd2ord]). *)
Definition days_before_year (y : Z) : Z :=
  let p := y - 1 in p * 365 + p / 4 - p / 100 + p / 400.

Definition days_before_month (y m : Z) : Z :=
  nth (Z.to_nat m) [0; 0; 31; 59; 90; 120; 151; 181; 212; 243; 273; 304; 334] 0
  + (if (2 <? m) && is_leap y then 1 else 0).

Definition toordinal (d : t) : Z :=
  days_before_year (year d) + days_before_month (year d) (month d) + day d.

End Date.

(** ** [datetime.datetime] *)

Module Datetime.

Record t : Type := mk
  { date : Date.t; hour : Z; minute : Z; second : Z; microsecond : Z }.

Definition year (x : t) : Z := Date.year (date x).
Definition month (x : t) : Z := Date.month (date x).
Definition day (x : t) : Z := Date.day (date x).

(** [x.replace(hour=0, minute=0, second=0, microsecond=0)] *)
Definition at_midnight (x : t) : t := mk (date x) 0 0 0 0.

(** [x + timedelta(days=k)]: the time of day is kept. *)
Definition add_days (x : t) (k : nat) : t :=
  mk (Date.add_days (date x) k) (hour x) (minute x) (second x) (microsecond x).

Definition digit (n : Z) : ascii := ascii_of_nat (48 + Z.to_nat (n mod 10)).

Definition pad2 (n : Z) : string :=
  String (digit (n / 10)) (String (digit n) EmptyString).

Definition pad4 (n : Z) : string :=
  String (digit (n / 1000)) (String (digit (n / 100)) (pad2 n)).

(** [x.strftime("%Y-%m-%d")] *)
Definition strftime_Ymd (x : t) : string :=
  (pad4 (year x) ++ "-" ++ pad2 (month x) ++ "-" ++ pad2 (day x))%string.

End Datetime.

(** ** Data model *)

(** [@dataclass class Transaction]: a monthly (recurring) transaction. *)
Module Transaction.
Record t : Type := mk { day : Z; amount : Z; name : string; color : string }.
End Transaction.

(** [@dataclass class OneTimeTransaction]; [amount] is stored signed. *)
Module OneTimeTransaction.
Record t : Type := mk
  { date : Datetime.t; amount : Z; type : string; name : string; color : string }.
End OneTimeTransaction.

(** The dictionaries [{"type", "name", "amount", "color"}] collected in
    [day_transactions]. *)
Module DayTransaction.
Record t : Type := mk { type : string; name : string; amount : Z; color : string }.
End DayTransaction.

(** The dictionaries [{"date", "transactions", "balance"}] appended to
    [forecast_data]: one ledger entry. *)
Module Entry.
Record t : Type := mk
  { date : Datetime.t; transactions : list DayTransaction.t; balance : Z }.
End Entry.

(** A row of the returned data frame. *)
Module Row.
Record t : Type := mk
  { Date : string; Transaction : string; Income : Z; Expense : Z; Balance : Z }.
End Row.

(** The fields of a [FinanceTracker] object ([data_file] is the constant
    path [finance_data.json]). *)
Record FinanceTracker : Type := mkFinanceTracker
  { initial_balance : Z;
    current_balance : Z;
    monthly_incomes : list Transaction.t;
    monthly_expenses : list Transaction.t;
    one_time_transactions : list OneTimeTransaction.t }.

(** ** Environment and effects *)

Inductive exn : Type := ValueError (msg : string).

(** [clock] is what [datetime.now()] returns; [data_file] is the record last
    written to [finance_data.json] ([None]: no file); [write_calls] counts the
    calls of [write_text]; [write_failure] makes [write_text] raise with the
    given message when it opens the file for writing (a file or directory
    that may not be written), which leaves the file as it was; [stdout]
    collects what [print] wrote.  A write that fails after the file was
    opened leaves a truncated file, which [data_file] cannot hold: that
    failure is outside the model. *)
Record World : Type := mkWorld
  { self : FinanceTracker;
    clock : Datetime.t;
    data_file : option FinanceTracker;
    write_calls : nat;
    write_failure : option string;
    stdout : list string }.

Inductive result (A : Type) : Type :=
| Return (a : A)
| Raise (e : exn).
Arguments Return {A} a.
Arguments Raise {A} e.

Definition M (A : Type) : Type := World -> result A * World.

Definition ret {A} (a : A) : M A := fun w => (Return a, w).

Definition bind {A B} (c : M A) (k : A -> M B) : M B :=
  fun w => match c w with
           | (Return a, w') => k a w'
           | (Raise e, w') => (Raise e, w')
           end.

Definition raise {A} (e : exn) : M A := fun w => (Raise e, w).

Notation "x <- c ;; k" := (bind c (fun x => k))
  (at level 61, c at next level, right associativity).
Notation "c ;; k" := (bind c (fun _ => k))
  (at level 61, right associativity).

Definition get_self : M FinanceTracker := fun w => (Return (self w), w).

Definition update_self (f : FinanceTracker -> FinanceTracker) : M unit :=
  fun w => (Return tt,
            mkWorld (f (self w)) (clock w) (data_file w) (write_calls w)
                    (write_failure w) (stdout w)).

Definition datetime_now : M Datetime.t := fun w => (Return (clock w), w).

(** [if cond: raise e] *)
Definition raise_if (cond : bool) (e : exn) : M unit :=
  if cond then raise e else ret tt.

(** [x or default] on an optional string: [None] and [""] are falsy. *)
Definition str_or (x : option string) (default : string) : string :=
  match x with
  | None => default
  | Some EmptyString => default
  | Some s => s
  end.

(** [date or datetime.now()]: every [datetime] is truthy. *)
Definition date_or_now (x : option Datetime.t) : M Datetime.t :=
  match x with
  | Some d => ret d
  | None => datetime_now
  end.

(** ** Persistence *)

(** [save_data]: the record is written through to the file; a failure of the
    write is caught and printed, never raised.  The failure modelled is the
    one on opening the file, see [World]. *)
Definition save_data : M unit := fun w =>
  match write_failure w with
  | None =>
      (Return tt,
       mkWorld (self w) (clock w) (Some (self w)) (S (write_calls w))
               (write_failure w) (stdout w))
  | Some e =>
      (Return tt,
       mkWorld (self w) (clock w) (data_file w) (S (write_calls w))
               (write_failure w)
               (stdout w ++ [("Error saving data: " ++ e)%string]))
  end.

(** ** Validated updates *)

Definition append_one_time (t : OneTimeTransaction.t) (s : FinanceTracker) :=
  mkFinanceTracker (initial_balance s) (current_balance s) (monthly_incomes s)
    (monthly_expenses s) (one_time_transactions s ++ [t]).

Definition append_monthly_income (t : Transaction.t) (s : FinanceTracker) :=
  mkFinanceTracker (initial_balance s) (current_balance s)
    (monthly_incomes s ++ [t]) (monthly_expenses s) (one_time_transactions s).

Definition append_monthly_expense (t : Transaction.t) (s : FinanceTracker) :=
  mkFinanceTracker (initial_balance s) (current_balance s) (monthly_incomes s)
    (monthly_expenses s ++ [t]) (one_time_transactions s).

Definition set_balances (b : Z) (s : FinanceTracker) :=
  mkFinanceTracker b b (monthly_incomes s) (monthly_expenses s)
    (one_time_transactions s).

(** [add_income(amount, date=None, name=None, color="green")] *)
Definition add_income (amount : Z) (date : option Datetime.t)
    (name : option string) (color : string) : M unit :=
  raise_if (amount <=? 0) (ValueError "Income amount must be positive") ;;
  d <- date_or_now date ;;
  update_self (append_one_time
    (OneTimeTransaction.mk d amount "income" (str_or name "One-time Income") color)) ;;
  save_data.

(** [add_expense(amount, date=None, name=None, color="red")] *)
Definition add_expense (amount : Z) (date : option Datetime.t)
    (name : option string) (color : string) : M unit :=
  raise_if (amount <=? 0) (ValueError "Expense amount must be positive") ;;
  d <- date_or_now date ;;
  update_self (append_one_time
    (OneTimeTransaction.mk d (- amount) "expense" (str_or name "One-time Expense") color)) ;;
  save_data.

(** [add_monthly_income(day, amount, name, color="green")] *)
Definition add_monthly_income (day amount : Z) (name color : string) : M unit :=
  raise_if (negb ((1 <=? day) && (day <=? 31)))
           (ValueError "Day must be between 1 and 31") ;;
  raise_if (amount <=? 0) (ValueError "Income amount must be positive") ;;
  update_self (append_monthly_income (Transaction.mk day amount name color)) ;;
  save_data.

(** [add_monthly_expense(day, amount, name, color="red")] *)
Definition add_monthly_expense (day amount : Z) (name color : string) : M unit :=
  raise_if (negb ((1 <=? day) && (day <=? 31)))
           (ValueError "Day must be between 1 and 31") ;;
  raise_if (amount <=? 0) (ValueError "Expense amount must be positive") ;;
  update_self (append_monthly_expense (Transaction.mk day amount name color)) ;;
  save_data.

(** [update_initial_balance(balance)] *)
Definition update_initial_balance (balance : Z) : M unit :=
  raise_if (balance <? 0) (ValueError "Initial balance cannot be negative") ;;
  update_self (set_balances balance) ;;
  save_data.

(** The error classes of the specification, as the code signals them: both
    are [ValueError]s, told apart by their message. *)
Definition InvalidDay (e : exn) : Prop :=
  e = ValueError "Day must be between 1 and 31".

Definition InvalidAmount (e : exn) : Prop :=
  e = ValueError "Income amount must be positive"
  \/ e = ValueError "Expense amount must be positive".

(** ** The projection *)

(** [sorted(l, key=...)] with [datetime.date] keys.  Python's sort is stable
    and compares keys with [<] only; a stable sort has one possible result,
    computed here by insertion from the right. *)
Section Sorted.
Context {A : Type} (key : A -> Date.t).

Fixpoint insert (x : A) (l : list A) : list A :=
  match l with
  | [] => [x]
  | y :: l' => if Date.ltb (key y) (key x) then y :: insert x l' else x :: l
  end.

Definition sorted (l : list A) : list A := fold_right insert [] l.

(** Ascending order of the keys. *)
Definition key_le (a b : A) : Prop := Date.leb (key a) (key b) = true.
End Sorted.

(** [lambda x: x.date.date()] *)
Definition date_key (x : OneTimeTransaction.t) : Date.t :=
  Datetime.date (OneTimeTransaction.date x).

Definition income_dict (income : Transaction.t) : DayTransaction.t :=
  DayTransaction.mk "income" (Transaction.name income)
    (Transaction.amount income) (Transaction.color income).

Definition expense_dict (expense : Transaction.t) : DayTransaction.t :=
  DayTransaction.mk "expense" (Transaction.name expense)
    (- Transaction.amount expense) (Transaction.color expense).

Definition one_time_dict (t : OneTimeTransaction.t) : DayTransaction.t :=
  DayTransaction.mk (OneTimeTransaction.type t) (OneTimeTransaction.name t)
    (OneTimeTransaction.amount t) (OneTimeTransaction.color t).

(** [t.day == current_date.day] *)
Definition on_day (current_date : Datetime.t) (t : Transaction.t) : bool :=
  Transaction.day t =? Datetime.day current_date.

(** [t.date.date() == current_date.date()] *)
Definition on_date (current_date : Datetime.t) (t : OneTimeTransaction.t) : bool :=
  Date.eqb (date_key t) (Datetime.date current_date).

(** The list [day_transactions] built in one turn of the loop. *)
Definition day_transactions (s : FinanceTracker)
    (sorted_transactions : list OneTimeTransaction.t)
    (current_date : Datetime.t) : list DayTransaction.t :=
  let day_transactions := [] in
  let day_transactions :=
    if existsb (on_day current_date) (monthly_incomes s)
    then day_transactions
         ++ map income_dict (filter (on_day current_date) (monthly_incomes s))
    else day_transactions in
  let day_transactions :=
    if existsb (on_day current_date) (monthly_expenses s)
    then day_transactions
         ++ map expense_dict (filter (on_day current_date) (monthly_expenses s))
    else day_transactions in
  day_transactions
  ++ map one_time_dict (filter (on_date current_date) sorted_transactions).

(** [for transaction in day_transactions: current_balance += transaction['amount']]
    on [int]s; [Binary64.update_balance] is the same loop on [float]s. *)
Definition update_balance (current_balance : Z)
    (day_transactions : list DayTransaction.t) : Z :=
  fold_left (fun b transaction => b + DayTransaction.amount transaction)
            day_transactions current_balance.

(** The same accumulation when the amounts are binary64 [float]s, as for an
    amount typed with decimals: each [+=] rounds. *)
Module Binary64.
Import PrimFloat.
#[local] Set Warnings "-inexact-float".

(** [for transaction in day_transactions: current_balance += transaction['amount']] *)
Definition update_balance (current_balance : float) (amounts : list float) : float :=
  fold_left add amounts current_balance.







End Binary64.

(** The loop [for day_offset in range(max_days)], over the offsets still to
    visit, with the loop variables [forecast_data] and [current_balance];
    [break] returns the list as it stands. *)
Fixpoint forecast_loop (s : FinanceTracker)
    (sorted_transactions : list OneTimeTransaction.t) (start_date : Datetime.t)
    (offsets : list nat) (forecast_data : list Entry.t) (current_balance : Z)
    : list Entry.t :=
  match offsets with
  | [] => forecast_data
  | day_offset :: rest =>
      let current_date := Datetime.add_days start_date day_offset in
      let txs := day_transactions s sorted_transactions current_date in
      let current_balance := update_balance current_balance txs in
      let forecast_data :=
        forecast_data ++ [Entry.mk current_date txs current_balance] in
      if current_balance <=? 0
      then forecast_data
      else forecast_loop s sorted_transactions start_date rest
                         forecast_data current_balance
  end.

(** [range(max_days)]: empty when [max_days <= 0]. *)
Definition range (max_days : Z) : list nat := seq 0 (Z.to_nat max_days).

(** The list [forecast_data] at the end of [generate_daily_forecast], for the
    clock reading [now]: the ledger of the projection. *)
Definition forecast_data (s : FinanceTracker) (now : Datetime.t) (max_days : Z)
    : list Entry.t :=
  let start_date := Datetime.at_midnight now in
  let current_balance := initial_balance s in
  let sorted_transactions := sorted date_key (one_time_transactions s) in
  forecast_loop s sorted_transactions start_date (range max_days) []
                current_balance.

Definition transaction_row (entry : Entry.t) (transaction : DayTransaction.t)
    : Row.t :=
  Row.mk (Datetime.strftime_Ymd (Entry.date entry))
         (DayTransaction.name transaction)
         (if 0 <? DayTransaction.amount transaction
          then Z.abs (DayTransaction.amount transaction) else 0)
         (if DayTransaction.amount transaction <? 0
          then Z.abs (DayTransaction.amount transaction) else 0)
         (Entry.balance entry).

Definition empty_row (entry : Entry.t) : Row.t :=
  Row.mk (Datetime.strftime_Ymd (Entry.date entry)) "-" 0 0 (Entry.balance entry).

(** [_create_forecast_dataframe]: the rows of the data frame. *)
Definition _create_forecast_dataframe (forecast_data : list Entry.t) : list Row.t :=
  flat_map (fun entry =>
              match Entry.transactions entry with
              | [] => [empty_row entry]
              | txs => map (transaction_row entry) txs
              end) forecast_data.

(** [generate_daily_forecast(max_days=180)] *)
Definition generate_daily_forecast (max_days : Z) : M (list Row.t) :=
  now <- datetime_now ;;
  s <- get_self ;;
  ret (_create_forecast_dataframe (forecast_data s now max_days)).

(** The ledger a call computes in world [w]. *)
Definition ledger (w : World) (max_days : Z) : list Entry.t :=
  forecast_data (self w) (clock w) max_days.

(** *** Worked scenarios *)

Definition jan1 : Datetime.t := Datetime.mk (Date.mk 2024 1 1) 9 30 0 0.

Definition at_day (d : Z) : Datetime.t := Datetime.mk (Date.mk 2024 1 d) 0 0 0 0.

Definition world_of (s : FinanceTracker) (now : Datetime.t) : World :=
  mkWorld s now None 0 None [].

(** initial balance 1000, one monthly expense of 1000 on the 5th, horizon 10 *)
Definition rent_tracker : FinanceTracker :=
  mkFinanceTracker 1000 1000 [] [Transaction.mk 5 1000 "Rent" "red"] [].

(** initial balance 0, one one-time income of 500 on the third day, horizon 5 *)
Definition gift_tracker : FinanceTracker :=
  mkFinanceTracker 0 0 [] []
    [OneTimeTransaction.mk (at_day 3) 500 "income" "Gift" "green"].

(** ** Notions used in the statements *)

(** The first projected date, and the date [i] days on. *)
Definition start_date (w : World) : Datetime.t := Datetime.at_midnight (clock w).

Definition date_at (w : World) (i : nat) : Datetime.t :=
  Datetime.add_days (start_date w) i.

Definition sorted_transactions (w : World) : list OneTimeTransaction.t :=
  sorted date_key (one_time_transactions (self w)).

(** What the loop applies on the date [i] days on, and the balance it has
    reached after that day when it runs that far. *)
Definition applied_at (w : World) (i : nat) : list DayTransaction.t :=
  day_transactions (self w) (sorted_transactions w) (date_at w i).

Fixpoint balance_after (w : World) (i : nat) : Z :=
  match i with
  | O => update_balance (initial_balance (self w)) (applied_at w O)
  | S j => update_balance (balance_after w j) (applied_at w i)
  end.

Definition entry_at (w : World) (i : nat) : Entry.t :=
  Entry.mk (date_at w i) (applied_at w i) (balance_after w i).

Definition sumZ (l : list Z) : Z := fold_right Z.add 0 l.

(** The specification's sum of the signed amounts of a date: monthly incomes
    of that day of the month as [+amount], monthly expenses as [-amount],
    one-time transactions of that date with their stored amount. *)
Definition signed_total (s : FinanceTracker) (d : Datetime.t) : Z :=
  sumZ (map Transaction.amount (filter (on_day d) (monthly_incomes s)))
  - sumZ (map Transaction.amount (filter (on_day d) (monthly_expenses s)))
  + sumZ (map OneTimeTransaction.amount
              (filter (on_date d) (one_time_transactions s))).

(** The balance carried into entry [i] of a ledger: the initial balance for
    the first entry, the balance of the entry before for the others. *)
Definition balance_before (s : FinanceTracker) (out : list Entry.t) (i : nat) : Z :=
  match i with
  | O => initial_balance s
  | S j => match nth_error out j with
           | Some p => Entry.balance p
           | None => 0
           end
  end.

(** The loop seen from offset [k]: the transactions of the date [k] days on,
    the entries added for [n] more offsets when the balance carried in is
    [bal], and the balance [i] days further on. *)
Section FromOffset.
Variables (s : FinanceTracker) (srt : list OneTimeTransaction.t)
          (start : Datetime.t).

Definition txs_on (k : nat) : list DayTransaction.t :=
  day_transactions s srt (Datetime.add_days start k).

Fixpoint emitted (k n : nat) (bal : Z) : list Entry.t :=
  match n with
  | O => []
  | S n' =>
      let b := update_balance bal (txs_on k) in
      let e := Entry.mk (Datetime.add_days start k) (txs_on k) b in
      if b <=? 0 then [e] else e :: emitted (S k) n' b
  end.

Fixpoint balance_from (k : nat) (bal : Z) (i : nat) : Z :=
  match i with
  | O => update_balance bal (txs_on k)
  | S j => balance_from (S k) (update_balance bal (txs_on k)) j
  end.
End FromOffset.

(** A tracker with transactions of every kind, projected from 2024-01-01:
    two one-time transactions share 2024-01-02, entered expense first. *)
Definition sample_tracker : FinanceTracker :=
  mkFinanceTracker 1000 1000
    [Transaction.mk 3 200 "Pay" "green"]
    [Transaction.mk 3 50 "Fee" "red"; Transaction.mk 31 10 "Club" "red"]
    [OneTimeTransaction.mk (at_day 4) 70 "income" "Sale" "green";
     OneTimeTransaction.mk (Datetime.mk (Date.mk 2024 1 2) 18 0 0 0)
                           (-100) "expense" "Shoes" "red";
     OneTimeTransaction.mk (at_day 2) 40 "income" "Refund" "green"].

Definition sample_world : World := world_of sample_tracker jan1.

(** A projection across the end of April, with monthly transactions on the
    30th and the 31st. *)
Definition april_tracker : FinanceTracker :=
  mkFinanceTracker 500 500
    [Transaction.mk 31 900 "Bonus" "green"; Transaction.mk 30 20 "Interest" "green"]
    [Transaction.mk 31 100 "Club" "red"]
    [].

Definition april_world : World :=
  world_of april_tracker (Datetime.mk (Date.mk 2024 4 29) 7 45 12 0).

(** The add operations as one family, as the callback dispatches them. *)
Inductive add_operation : Type :=
| AddIncome (amount : Z) (date : option Datetime.t) (name : option string)
            (color : string)
| AddExpense (amount : Z) (date : option Datetime.t) (name : option string)
             (color : string)
| AddMonthlyIncome (day amount : Z) (name color : string)
| AddMonthlyExpense (day amount : Z) (name color : string).

Definition run_add (op : add_operation) : M unit :=
  match op with
  | AddIncome amount date name color => add_income amount date name color
  | AddExpense amount date name color => add_expense amount date name color
  | AddMonthlyIncome day amount name color =>
      add_monthly_income day amount name color
  | AddMonthlyExpense day amount name color =>
      add_monthly_expense day amount name color
  end.

(** The same tracker as [sample_world], called a day later and with a file
    already written. *)
Definition next_day_world : World :=
  mkWorld sample_tracker (Datetime.mk (Date.mk 2024 1 2) 23 59 59 0)
          (Some rent_tracker) 3 None [].

(** [sample_world] at another time of the same day, with another
    [current_balance] and a data file that may not be written. *)
Definition same_day_world : World :=
  mkWorld (mkFinanceTracker 1000 (-7)
             (monthly_incomes sample_tracker) (monthly_expenses sample_tracker)
             (one_time_transactions sample_tracker))
          (Datetime.mk (Date.mk 2024 1 1) 21 0 0 0)
          None 1 (Some "Permission denied"%string) [].

(** ** Default transactions, loading and construction *)

(** [print(line)] *)
Definition print (line : string) : M unit :=
  fun w => (Return tt,
            mkWorld (self w) (clock w) (data_file w) (write_calls w)
                    (write_failure w) (stdout w ++ [line])).

Definition default_incomes : list Transaction.t :=
  [Transaction.mk 21 13000 "Pension" "green"].

Definition default_expenses : list Transaction.t :=
  [Transaction.mk 14 35000 "Rent" "red";
   Transaction.mk 22 900 "Internet" "darkred"].

Definition set_default_lists (s : FinanceTracker) : FinanceTracker :=
  mkFinanceTracker (initial_balance s) (current_balance s)
    default_incomes default_expenses (one_time_transactions s).

(** [_set_default_transactions] *)
Definition _set_default_transactions : M unit :=
  update_self set_default_lists ;;
  save_data.

(** What the dataclass constructor makes of one object of a JSON list (for
    a one-time transaction, after [datetime.fromisoformat] on its date): the
    instance, or an exception with its message.  The same type gives the
    outcome of [datetime.strptime]. *)
Inductive parsed (A : Type) : Type :=
| Accepted (a : A)
| Rejected (msg : string).
Arguments Accepted {A} a.
Arguments Rejected {A} msg.

(** The dictionary [data] decoded from the file: each key may be absent. *)
Record Document : Type := mkDocument
  { doc_initial_balance : option Z;
    doc_current_balance : option Z;
    doc_monthly_incomes : option (list (parsed Transaction.t));
    doc_monthly_expenses : option (list (parsed Transaction.t));
    doc_one_time_transactions : option (list (parsed OneTimeTransaction.t)) }.

(** What [load_data] finds: no file, a file that decodes to a dictionary, or
    a file whose reading or decoding raises. *)
Inductive file_content : Type :=
| NoFile
| Json (data : Document)
| Broken (msg : string).

(** [data.get(key, default)] *)
Definition get_or {A} (field : option A) (default : A) : A :=
  match field with
  | Some a => a
  | None => default
  end.

(** A list comprehension over converted objects: the first rejected object
    raises and no list is built. *)
Fixpoint comprehension {A} (l : list (parsed A)) : parsed (list A) :=
  match l with
  | [] => Accepted []
  | Rejected msg :: _ => Rejected msg
  | Accepted a :: l' =>
      match comprehension l' with
      | Accepted r => Accepted (a :: r)
      | Rejected msg => Rejected msg
      end
  end.

(** The loop appending the one-time transactions one by one: it stops at the
    first rejected object, with what was appended so far. *)
Fixpoint load_one_time (l : list (parsed OneTimeTransaction.t))
    (s : FinanceTracker) : option string * FinanceTracker :=
  match l with
  | [] => (None, s)
  | Rejected msg :: _ => (Some msg, s)
  | Accepted t :: l' => load_one_time l' (append_one_time t s)
  end.

(** The [try] block of [load_data] on a decoded dictionary: the exception
    raised, if any, and the fields as assigned up to that point. *)
Definition load_document (data : Document) (s : FinanceTracker)
    : option string * FinanceTracker :=
  let s := mkFinanceTracker
             (get_or (doc_initial_balance data) (initial_balance s))
             (current_balance s) (monthly_incomes s) (monthly_expenses s)
             (one_time_transactions s) in
  let s := mkFinanceTracker (initial_balance s)
             (get_or (doc_current_balance data) (current_balance s))
             (monthly_incomes s) (monthly_expenses s)
             (one_time_transactions s) in
  match comprehension (get_or (doc_monthly_incomes data) []) with
  | Rejected msg => (Some msg, s)
  | Accepted incomes =>
      let s := mkFinanceTracker (initial_balance s) (current_balance s)
                 incomes (monthly_expenses s) (one_time_transactions s) in
      match comprehension (get_or (doc_monthly_expenses data) []) with
      | Rejected msg => (Some msg, s)
      | Accepted expenses =>
          let s := mkFinanceTracker (initial_balance s) (current_balance s)
                     (monthly_incomes s) expenses (one_time_transactions s) in
          let s := mkFinanceTracker (initial_balance s) (current_balance s)
                     (monthly_incomes s) (monthly_expenses s) [] in
          load_one_time (get_or (doc_one_time_transactions data) []) s
      end
  end.

Definition try_block (f : file_content) (s : FinanceTracker)
    : option string * FinanceTracker :=
  match f with
  | NoFile => (None, s)
  | Json data => load_document data s
  | Broken msg => (Some msg, s)
  end.

(** [load_data], for what the file holds: every exception is caught,
    printed, and answered with the default transactions. *)
Definition load_data_from (f : file_content) : M unit :=
  s <- get_self ;;
  match try_block f s with
  | (None, s') => update_self (fun _ => s')
  | (Some msg, s') =>
      update_self (fun _ => s') ;;
      print ("Error loading data: " ++ msg) ;;
      _set_default_transactions
  end.

(** The dictionary [save_data] writes: all five keys, every object one the
    constructors accept back. *)
Definition document_of (s : FinanceTracker) : Document :=
  mkDocument (Some (initial_balance s)) (Some (current_balance s))
    (Some (map Accepted (monthly_incomes s)))
    (Some (map Accepted (monthly_expenses s)))
    (Some (map Accepted (one_time_transactions s))).

Definition file_of (w : World) : file_content :=
  match data_file w with
  | None => NoFile
  | Some s => Json (document_of s)
  end.

Definition load_data : M unit := fun w => load_data_from (file_of w) w.

(** [not l] on a list *)
Definition is_empty {A} (l : list A) : bool :=
  match l with
  | [] => true
  | _ => false
  end.

(** [FinanceTracker.__init__(initial_balance)], for what the file holds. *)
Definition init_from (f : file_content) (initial_balance : Z) : M unit :=
  update_self (fun _ => mkFinanceTracker initial_balance initial_balance [] [] []) ;;
  load_data_from f ;;
  s <- get_self ;;
  if is_empty (monthly_incomes s) && is_empty (monthly_expenses s)
  then _set_default_transactions
  else ret tt.

Definition __init__ (initial_balance : Z) : M unit :=
  fun w => init_from (file_of w) initial_balance w.

(** ** The callback [update_forecast] *)

(** The [State] values of the form; [None] is an empty field. *)
Record Inputs : Type := mkInputs
  { initial_balance_value : option Z;
    income_day : option Z;
    income_amount : option Z;
    income_name : option string;
    expense_day : option Z;
    expense_amount : option Z;
    expense_name : option string;
    transaction_date : option string;
    transaction_amount : option Z;
    transaction_name : option string;
    transaction_type : option string }.

(** [prop_id.split('.')[0]] *)
Fixpoint before_dot (s : string) : string :=
  match s with
  | EmptyString => EmptyString
  | String c r => if Ascii.eqb c "." then EmptyString else String c (before_dot r)
  end.

(** [triggered] lists the [prop_id]s of [ctx.triggered]. *)
Definition button_id (triggered : list string) : string :=
  match triggered with
  | [] => "No clicks yet"
  | prop_id :: _ => before_dot prop_id
  end.

(** Truthiness inside [all([...])]: [None], [0] and [""] are falsy. *)
Definition truthy_number (x : option Z) : option Z :=
  match x with
  | Some v => if v =? 0 then None else Some v
  | None => None
  end.

Definition truthy_string (x : option string) : option string :=
  match x with
  | Some EmptyString => None
  | Some s => Some s
  | None => None
  end.

(** [try: c except ValueError as e: handler(e)]; [ValueError] is the only
    exception of the model. *)
Definition try_except (c : M unit) (handler : string -> M unit) : M unit :=
  fun w => match c w with
           | (Return a, w') => (Return a, w')
           | (Raise (ValueError msg), w') => handler msg w'
           end.

(** [transaction_type == 'income'] *)
Definition type_is_income (transaction_type : option string) : bool :=
  match transaction_type with
  | Some t => String.eqb t "income"
  | None => false
  end.

Section Callback.
Variable strptime_Ymd : string -> parsed Datetime.t.

(** The [if]/[elif] chain inside the [try] block. *)
Definition dispatch (button : string) (i : Inputs) : M unit :=
  match (if String.eqb button "update-balance-button"
         then initial_balance_value i else None) with
  | Some balance => update_initial_balance balance
  | None =>
  match (if String.eqb button "add-monthly-income-button"
         then truthy_number (income_day i) else None),
        truthy_number (income_amount i), truthy_string (income_name i) with
  | Some day, Some amount, Some name => add_monthly_income day amount name "green"
  | _, _, _ =>
  match (if String.eqb button "add-monthly-expense-button"
         then truthy_number (expense_day i) else None),
        truthy_number (expense_amount i), truthy_string (expense_name i) with
  | Some day, Some amount, Some name => add_monthly_expense day amount name "red"
  | _, _, _ =>
  match (if String.eqb button "add-transaction-button"
         then truthy_string (transaction_date i) else None),
        truthy_number (transaction_amount i),
        truthy_string (transaction_name i) with
  | Some date_string, Some amount, Some name =>
      match strptime_Ymd date_string with
      | Rejected msg => raise (ValueError msg)
      | Accepted date =>
          if type_is_income (transaction_type i)
          then add_income amount (Some date) (Some name) "green"
          else add_expense amount (Some date) (Some name) "red"
      end
  | _, _, _ => ret tt
  end end end end.

(** [update_forecast]: the records of the data frame it returns (the figure
    is drawn from the same data frame). *)
Definition update_forecast (triggered : list string) (i : Inputs)
    : M (list Row.t) :=
  try_except (dispatch (button_id triggered) i)
             (fun msg => print ("Validation error: " ++ msg)) ;;
  generate_daily_forecast 180.
End Callback.

(** ** Further notions used in the statements *)

(** The data-model invariant the add operations maintain. *)
Definition valid_monthly (t : Transaction.t) : Prop :=
  1 <= Transaction.day t <= 31 /\ 0 < Transaction.amount t.

Definition valid_one_time (t : OneTimeTransaction.t) : Prop :=
  (OneTimeTransaction.type t = "income"%string /\ 0 < OneTimeTransaction.amount t)
  \/ (OneTimeTransaction.type t = "expense"%string /\ OneTimeTransaction.amount t < 0).

Definition well_formed (s : FinanceTracker) : Prop :=
  Forall valid_monthly (monthly_incomes s)
  /\ Forall valid_monthly (monthly_expenses s)
  /\ Forall valid_one_time (one_time_transactions s).

(** The sum of the signed totals of the first [n] projected dates. *)
Fixpoint total_through (w : World) (n : nat) : Z :=
  match n with
  | O => 0
  | S k => total_through w k + signed_total (self w) (date_at w k)
  end.

(** The number of rows an entry takes in the data frame. *)
Definition rows_of_entry (e : Entry.t) : nat :=
  Nat.max 1 (List.length (Entry.transactions e)).

(** A date picker string and a parser for the witnesses. *)
Definition sample_strptime (s : string) : parsed Datetime.t :=
  if String.eqb s "2024-01-03" then Accepted (at_day 3)
  else Rejected ("time data does not match format: " ++ s).

Definition no_inputs : Inputs :=
  mkInputs None None None None None None None None None None None.

(** A tracker without outflow: a monthly income and a one-time income. *)
Definition gift_saver : FinanceTracker :=
  mkFinanceTracker 100 100 [Transaction.mk 15 50 "Pay" "green"] []
    [OneTimeTransaction.mk (at_day 3) 500 "income" "Gift" "green"].

(** Whether the guards of an add operation let it through, and the tracker
    it then leaves. *)
Definition accepts (op : add_operation) : bool :=
  match op with
  | AddIncome amount _ _ _ | AddExpense amount _ _ _ => 0 <? amount
  | AddMonthlyIncome day amount _ _ | AddMonthlyExpense day amount _ _ =>
      (1 <=? day) && (day <=? 31) && (0 <? amount)
  end.

Definition added (op : add_operation) (w : World) : FinanceTracker :=
  match op with
  | AddIncome amount date name color =>
      append_one_time
        (OneTimeTransaction.mk (get_or date (clock w)) amount "income"
           (str_or name "One-time Income") color) (self w)
  | AddExpense amount date name color =>
      append_one_time
        (OneTimeTransaction.mk (get_or date (clock w)) (- amount) "expense"
           (str_or name "One-time Expense") color) (self w)
  | AddMonthlyIncome day amount name color =>
      append_monthly_income (Transaction.mk day amount name color) (self w)
  | AddMonthlyExpense day amount name color =>
      append_monthly_expense (Transaction.mk day amount name color) (self w)
  end.

(** The world after [save_data] on a tracker [s] put in place of [self w]. *)
Definition saved (s : FinanceTracker) (w : World) : World :=
  snd (save_data (mkWorld s (clock w) (data_file w) (write_calls w)
                          (write_failure w) (stdout w))).

Definition is_income (op : add_operation) : bool :=
  match op with
  | AddIncome _ _ _ _ | AddMonthlyIncome _ _ _ _ => true
  | _ => false
  end.

(** [sample_world] with a data file that may not be written. *)
Definition locked_file_world : World :=
  mkWorld sample_tracker jan1 (Some rent_tracker) 2
          (Some "Permission denied"%string) [].

(** The world [w] when the clock reads [now]. *)
Definition at_clock (now : Datetime.t) (w : World) : World :=
  mkWorld (self w) now (data_file w) (write_calls w) (write_failure w) (stdout w).

(** A decoded file whose second one-time transaction has a date that
    [datetime.fromisoformat] rejects. *)
Definition damaged_document : Document :=
  mkDocument (Some 250) None
    (Some [Accepted (Transaction.mk 1 10 "Pay" "green")])
    (Some [])
    (Some [Accepted (OneTimeTransaction.mk (at_day 3) 500 "income" "Gift" "green");
           Rejected "Invalid isoformat string: 'tomorrow'";
           Accepted (OneTimeTransaction.mk (at_day 4) 70 "income" "Sale" "green")]).

(** Whether the condition of the branch of the clicked button holds: the
    button is one of the four and its fields are truthy (for the balance
    button: the balance is not [None]). *)
Definition required_fields_present (button : string) (i : Inputs) : bool :=
  if String.eqb button "update-balance-button"
  then match initial_balance_value i with Some _ => true | None => false end
  else if String.eqb button "add-monthly-income-button"
  then match truthy_number (income_day i), truthy_number (income_amount i),
             truthy_string (income_name i) with
       | Some _, Some _, Some _ => true
       | _, _, _ => false
       end
  else if String.eqb button "add-monthly-expense-button"
  then match truthy_number (expense_day i), truthy_number (expense_amount i),
             truthy_string (expense_name i) with
       | Some _, Some _, Some _ => true
       | _, _, _ => false
       end
  else if String.eqb button "add-transaction-button"
  then match truthy_string (transaction_date i),
             truthy_number (transaction_amount i),
             truthy_string (transaction_name i) with
       | Some _, Some _, Some _ => true
       | _, _, _ => false
       end
  else false.

(** A one-time income form with amount 0, and a monthly income form with
    day 40. *)
Definition zero_amount_form : Inputs :=
  mkInputs None None None None None None None
           (Some "2024-01-03"%string) (Some 0) (Some "Gift"%string)
           (Some "income"%string).

Definition day_40_form : Inputs :=
  mkInputs None (Some 40) (Some 100) (Some "Pay"%string)
           None None None None None None (Some "income"%string).

(** * Properties *)

(** ** Calendar facts *)

Lemma days_in_month_bounds y m : 28 <= Date.days_in_month y m <= 31.
Proof.
  unfold Date.days_in_month.
  destruct (m =? 2); [destruct (Date.is_leap y); lia|].
  destruct ((m =? 4) || (m =? 6) || (m =? 9) || (m =? 11)); lia.
Qed.

Lemma validb_spec d : Date.validb d = true <-> Date.valid d.
Proof.
  unfold Date.validb, Date.valid.
  rewrite !andb_true_iff, !Z.leb_le. tauto.
Qed.

Lemma tomorrow_valid d : Date.valid d -> Date.valid (Date.tomorrow d).
Proof.
  intros (Hy & Hm & Hd). unfold Date.tomorrow, Date.valid.
  destruct (Z.ltb_spec (Date.day d) (Date.days_in_month (Date.year d) (Date.month d))).
  - cbn. lia.
  - destruct (Z.ltb_spec (Date.month d) 12); cbn.
    + pose proof (days_in_month_bounds (Date.year d) (Date.month d + 1)). lia.
    + pose proof (days_in_month_bounds (Date.year d + 1) 1). lia.
Qed.

Lemma add_days_S d k : Date.add_days d (S k) = Date.tomorrow (Date.add_days d k).
Proof. reflexivity. Qed.

Lemma add_days_valid d k : Date.valid d -> Date.valid (Date.add_days d k).
Proof.
  intros Hd. induction k as [|k IH]; [exact Hd|].
  rewrite add_days_S. now apply tomorrow_valid.
Qed.

Lemma ltb_spec a b :
  Date.ltb a b = true <->
  Date.year a < Date.year b
  \/ (Date.year a = Date.year b
      /\ (Date.month a < Date.month b
          \/ (Date.month a = Date.month b /\ Date.day a < Date.day b))).
Proof.
  unfold Date.ltb.
  rewrite !orb_true_iff, !andb_true_iff, !orb_true_iff, !andb_true_iff,
          !Z.ltb_lt, !Z.eqb_eq.
  tauto.
Qed.

Lemma ltb_trans a b c :
  Date.ltb a b = true -> Date.ltb b c = true -> Date.ltb a c = true.
Proof. rewrite !ltb_spec. lia. Qed.

Lemma ltb_irrefl a : Date.ltb a a = false.
Proof.
  destruct (Date.ltb a a) eqn:E; [|reflexivity].
  apply ltb_spec in E. lia.
Qed.

Lemma ltb_asym a b : Date.ltb a b = true -> Date.ltb b a = false.
Proof.
  intros H. destruct (Date.ltb b a) eqn:E; [|reflexivity].
  apply ltb_spec in H. apply ltb_spec in E. lia.
Qed.

Lemma eqb_eq a b : Date.eqb a b = true <-> a = b.
Proof.
  unfold Date.eqb. rewrite !andb_true_iff, !Z.eqb_eq.
  destruct a, b; cbn. split.
  - intros [[-> ->] ->]. reflexivity.
  - intros [= -> -> ->]. auto.
Qed.

Lemma eqb_refl a : Date.eqb a a = true.
Proof. now apply eqb_eq. Qed.

(** Dates are totally ordered: neither before the other means equal. *)
Lemma ltb_total a b : Date.ltb a b = false -> Date.ltb b a = false -> a = b.
Proof.
  intros H1 H2.
  assert (N1 : ~ Date.ltb a b = true) by (rewrite H1; discriminate).
  assert (N2 : ~ Date.ltb b a = true) by (rewrite H2; discriminate).
  rewrite ltb_spec in N1, N2.
  destruct a as [ya ma da], b as [yb mb db]; cbn in *.
  assert (ya = yb) by lia. assert (ma = mb) by lia. assert (da = db) by lia.
  congruence.
Qed.

Lemma tomorrow_later d : Date.ltb d (Date.tomorrow d) = true.
Proof.
  apply ltb_spec. unfold Date.tomorrow.
  destruct (Z.ltb_spec (Date.day d) (Date.days_in_month (Date.year d) (Date.month d)));
    [cbn; lia|].
  destruct (Z.ltb_spec (Date.month d) 12); cbn; lia.
Qed.

Lemma add_days_later d i j :
  (i < j)%nat -> Date.ltb (Date.add_days d i) (Date.add_days d j) = true.
Proof.
  induction 1 as [|j _ IH]; rewrite add_days_S.
  - apply tomorrow_later.
  - eapply ltb_trans; [exact IH | apply tomorrow_later].
Qed.

Lemma add_days_leb d i j :
  (i <= j)%nat -> Date.leb (Date.add_days d i) (Date.add_days d j) = true.
Proof.
  intros H. unfold Date.leb. apply negb_true_iff.
  destruct (Nat.eq_dec i j) as [->|Hne]; [apply ltb_irrefl|].
  apply ltb_asym, add_days_later. lia.
Qed.

(** The year lengths behind [toordinal]. *)
Lemma days_before_year_succ y :
  Date.days_before_year (y + 1)
  = Date.days_before_year y + (if Date.is_leap y then 366 else 365).
Proof.
  unfold Date.days_before_year, Date.is_leap. cbv zeta.
  replace (y + 1 - 1) with y by lia.
  destruct (Z.eqb_spec (y mod 4) 0), (Z.eqb_spec (y mod 100) 0),
           (Z.eqb_spec (y mod 400) 0); cbn [andb orb negb];
    Z.div_mod_to_equations; lia.
Qed.

Lemma days_before_month_succ y m :
  1 <= m < 12 ->
  Date.days_before_month y (m + 1)
  = Date.days_before_month y m + Date.days_in_month y m.
Proof.
  intros Hm.
  assert (Hc : m = 1 \/ m = 2 \/ m = 3 \/ m = 4 \/ m = 5 \/ m = 6 \/ m = 7
               \/ m = 8 \/ m = 9 \/ m = 10 \/ m = 11) by lia.
  unfold Date.days_before_month, Date.days_in_month.
  repeat (destruct Hc as [->|Hc]; [cbn; destruct (Date.is_leap y); reflexivity|]).
  subst m. cbn. destruct (Date.is_leap y); reflexivity.
Qed.

Lemma days_before_december y :
  Date.days_before_month y 12 + Date.days_in_month y 12
  = if Date.is_leap y then 366 else 365.
Proof.
  unfold Date.days_before_month, Date.days_in_month. cbn.
  destruct (Date.is_leap y); reflexivity.
Qed.

(** Stepping to the next day is stepping the ordinal by one: [tomorrow] is
    the library's [+ timedelta(days=1)]. *)
Lemma toordinal_tomorrow d :
  Date.valid d -> Date.toordinal (Date.tomorrow d) = Date.toordinal d + 1.
Proof.
  intros (Hy & Hm & Hd). unfold Date.tomorrow, Date.toordinal.
  destruct (Z.ltb_spec (Date.day d) (Date.days_in_month (Date.year d) (Date.month d)));
    [cbn; lia|].
  destruct (Z.ltb_spec (Date.month d) 12); cbn [Date.year Date.month Date.day].
  - rewrite days_before_month_succ by lia. lia.
  - assert (Date.month d = 12) as E by lia. rewrite E in *.
    rewrite days_before_year_succ.
    pose proof (days_before_december (Date.year d)).
    replace (Date.days_before_month (Date.year d + 1) 1) with 0 by reflexivity.
    lia.
Qed.

Lemma toordinal_add_days d k :
  Date.valid d -> Date.toordinal (Date.add_days d k) = Date.toordinal d + Z.of_nat k.
Proof.
  intros Hd. induction k as [|k IH]; [cbn; lia|].
  rewrite add_days_S, toordinal_tomorrow by now apply add_days_valid.
  lia.
Qed.

(** [toordinal] is strictly increasing on the dates of the library, so a
    valid date is determined by its ordinal: [add_days d k] is the one valid
    date whose ordinal is [toordinal d + k], which is how the library
    computes [d + timedelta(days=k)]. *)
Lemma month_cases m :
  1 <= m <= 12 ->
  m = 1 \/ m = 2 \/ m = 3 \/ m = 4 \/ m = 5 \/ m = 6 \/ m = 7 \/ m = 8
  \/ m = 9 \/ m = 10 \/ m = 11 \/ m = 12.
Proof. lia. Qed.

Ltac each_month H :=
  repeat (destruct H as [->|H]); [..|subst].

Lemma day_of_year_bounds d :
  Date.valid d ->
  1 <= Date.days_before_month (Date.year d) (Date.month d) + Date.day d
    <= (if Date.is_leap (Date.year d) then 366 else 365).
Proof.
  intros (_ & Hm & Hd). revert Hd.
  unfold Date.days_before_month, Date.days_in_month.
  pose proof (month_cases _ Hm) as H. revert H. generalize (Date.month d) as m.
  intros m H.
  each_month H; destruct (Date.is_leap (Date.year d));
    cbv -[Z.add Z.le Z.lt Date.day]; lia.
Qed.

Lemma days_before_year_step y n :
  Date.days_before_year y + 365 * Z.of_nat n
  <= Date.days_before_year (y + Z.of_nat n).
Proof.
  induction n as [|n IH].
  - replace (y + Z.of_nat 0) with y by lia. lia.
  - replace (y + Z.of_nat (S n)) with (y + Z.of_nat n + 1) by lia.
    rewrite days_before_year_succ.
    destruct (Date.is_leap (y + Z.of_nat n)); lia.
Qed.

Lemma days_before_month_lt y m m' d d' :
  1 <= m <= 12 -> 1 <= m' <= 12 -> m < m' ->
  1 <= d <= Date.days_in_month y m -> 1 <= d' ->
  Date.days_before_month y m + d < Date.days_before_month y m' + d'.
Proof.
  intros Hm Hm' Hlt Hd Hd'. revert Hd.
  unfold Date.days_before_month, Date.days_in_month.
  pose proof (month_cases _ Hm) as H. pose proof (month_cases _ Hm') as H'.
  each_month H; each_month H'; try lia;
    destruct (Date.is_leap y); cbv -[Z.add Z.le Z.lt]; lia.
Qed.

Lemma toordinal_lt a b :
  Date.valid a -> Date.valid b -> Date.ltb a b = true ->
  Date.toordinal a < Date.toordinal b.
Proof.
  intros Ha Hb Hlt. apply ltb_spec in Hlt.
  pose proof (day_of_year_bounds a Ha) as Ba.
  pose proof (day_of_year_bounds b Hb) as Bb.
  destruct Ha as (Hya & Hma & Hda), Hb as (Hyb & Hmb & Hdb).
  unfold Date.toordinal.
  destruct Hlt as [Hy|(Hy & [Hm|(Hm & Hd)])].
  - pose proof (days_before_year_step (Date.year a + 1)
                  (Z.to_nat (Date.year b - Date.year a - 1))) as Hs.
    rewrite Z2Nat.id in Hs by lia.
    replace (Date.year a + 1 + (Date.year b - Date.year a - 1))
      with (Date.year b) in Hs by lia.
    rewrite days_before_year_succ in Hs.
    destruct (Date.is_leap (Date.year a)); lia.
  - rewrite <- Hy in *.
    pose proof (days_before_month_lt (Date.year a) (Date.month a) (Date.month b)
                  (Date.day a) (Date.day b) Hma Hmb Hm Hda ltac:(lia)).
    lia.
  - rewrite Hy, Hm. lia.
Qed.

Lemma toordinal_inj a b :
  Date.valid a -> Date.valid b -> Date.toordinal a = Date.toordinal b -> a = b.
Proof.
  intros Ha Hb E. apply ltb_total.
  - destruct (Date.ltb a b) eqn:L; [|reflexivity].
    pose proof (toordinal_lt a b Ha Hb L). lia.
  - destruct (Date.ltb b a) eqn:L; [|reflexivity].
    pose proof (toordinal_lt b a Hb Ha L). lia.
Qed.

(** ** Worked runs *)

Example strftime_example :
  Datetime.strftime_Ymd (Datetime.mk (Date.mk 2024 4 9) 13 5 0 0) = "2024-04-09"%string.
Proof. reflexivity. Qed.

Example toordinal_example : Date.toordinal (Date.mk 2024 4 30) = 739006.
Proof. reflexivity. Qed.

Example rent_scenario :
  map (fun e => (Datetime.day (Entry.date e), Entry.balance e))
      (ledger (world_of rent_tracker jan1) 10)
  = [(1, 1000); (2, 1000); (3, 1000); (4, 1000); (5, 0)].
Proof. reflexivity. Qed.

Example gift_scenario :
  map (fun e => (Datetime.day (Entry.date e), Entry.balance e))
      (ledger (world_of gift_tracker jan1) 5)
  = [(1, 0)].
Proof. reflexivity. Qed.

(** ** The stable sort *)

Lemma leb_trans a b c :
  Date.leb a b = true -> Date.leb b c = true -> Date.leb a c = true.
Proof.
  unfold Date.leb. rewrite !negb_true_iff. intros H1 H2.
  destruct (Date.ltb c a) eqn:E; [|reflexivity].
  destruct (Date.ltb b c) eqn:E1.
  - rewrite (ltb_trans _ _ _ E1 E) in H1. discriminate.
  - rewrite (ltb_total _ _ E1 H2) in H1. congruence.
Qed.

Section SortedFacts.
Context {A : Type} (key : A -> Date.t).

Lemma insert_perm x l : Permutation (x :: l) (insert key x l).
Proof.
  induction l as [|y l IH]; cbn; [reflexivity|].
  destruct (Date.ltb (key y) (key x)); [|reflexivity].
  rewrite perm_swap. now constructor.
Qed.

Lemma sorted_perm l : Permutation l (sorted key l).
Proof.
  induction l as [|x l IH]; cbn; [constructor|].
  rewrite <- insert_perm. now constructor.
Qed.

Lemma insert_sorted x l :
  StronglySorted (key_le key) l -> StronglySorted (key_le key) (insert key x l).
Proof.
  induction 1 as [|y l Hs IH Hy]; cbn.
  - repeat constructor.
  - destruct (Date.ltb (key y) (key x)) eqn:E.
    + constructor; [exact IH|].
      rewrite Forall_forall in *. intros z Hz.
      apply (Permutation_in _ (Permutation_sym (insert_perm x l))) in Hz.
      destruct Hz as [<-|Hz]; [|now apply Hy].
      unfold key_le, Date.leb. now rewrite (ltb_asym _ _ E).
    + constructor; [now constructor|].
      assert (Hxy : key_le key x y) by (unfold key_le, Date.leb; now rewrite E).
      constructor; [exact Hxy|].
      rewrite Forall_forall in *. intros z Hz. specialize (Hy z Hz).
      unfold key_le in *. eapply leb_trans; eassumption.
Qed.

Lemma sorted_sorted l : StronglySorted (key_le key) (sorted key l).
Proof.
  induction l as [|x l IH]; cbn; [constructor|]. now apply insert_sorted.
Qed.

(** Stability: the elements of one key keep their order. *)
Lemma insert_filter d x l :
  filter (fun y => Date.eqb (key y) d) (insert key x l)
  = filter (fun y => Date.eqb (key y) d) (x :: l).
Proof.
  induction l as [|y l IH]; [reflexivity|].
  cbn [insert]. destruct (Date.ltb (key y) (key x)) eqn:E; [|reflexivity].
  cbn [filter] in *. rewrite IH.
  destruct (Date.eqb (key y) d) eqn:Ey, (Date.eqb (key x) d) eqn:Ex; try reflexivity.
  apply eqb_eq in Ey, Ex. rewrite Ey, Ex, ltb_irrefl in E. discriminate.
Qed.

Lemma sorted_filter d l :
  filter (fun y => Date.eqb (key y) d) (sorted key l)
  = filter (fun y => Date.eqb (key y) d) l.
Proof.
  induction l as [|x l IH]; [reflexivity|].
  cbn [sorted fold_right]. fold (sorted key l).
  rewrite insert_filter. cbn [filter]. now rewrite IH.
Qed.
End SortedFacts.

(** ** The loop *)

Lemma update_balance_sum b txs :
  update_balance b txs = b + sumZ (map DayTransaction.amount txs).
Proof.
  unfold update_balance, sumZ. revert b.
  induction txs as [|t txs IH]; intros b; cbn; [lia|]. rewrite IH. lia.
Qed.

Lemma sumZ_app l1 l2 : sumZ (l1 ++ l2) = sumZ l1 + sumZ l2.
Proof. unfold sumZ. induction l1 as [|x l1 IH]; cbn; lia. Qed.

Lemma existsb_filter {A} (p : A -> bool) (l : list A) :
  existsb p l = false -> filter p l = [].
Proof.
  induction l as [|x l IH]; cbn; [reflexivity|].
  destruct (p x); cbn; [discriminate|exact IH].
Qed.

(** The two [any(...)] guards change nothing: the day's list is the three
    comprehensions one after the other. *)
Lemma day_transactions_eq s srt d :
  day_transactions s srt d
  = map income_dict (filter (on_day d) (monthly_incomes s))
    ++ map expense_dict (filter (on_day d) (monthly_expenses s))
    ++ map one_time_dict (filter (on_date d) srt).
Proof.
  unfold day_transactions.
  destruct (existsb (on_day d) (monthly_incomes s)) eqn:Ei;
    destruct (existsb (on_day d) (monthly_expenses s)) eqn:Ee;
    rewrite ?(existsb_filter _ _ Ei), ?(existsb_filter _ _ Ee); cbn [map app];
    rewrite <- ?app_assoc; reflexivity.
Qed.

Section Loop.
Variables (s : FinanceTracker) (srt : list OneTimeTransaction.t)
          (start : Datetime.t).

Lemma forecast_loop_emitted n k acc bal :
  forecast_loop s srt start (seq k n) acc bal
  = acc ++ emitted s srt start k n bal.
Proof.
  revert k acc bal. induction n as [|n IH]; intros k acc bal; cbn.
  - now rewrite app_nil_r.
  - fold (txs_on s srt start k).
    destruct (update_balance bal (txs_on s srt start k) <=? 0); [reflexivity|].
    rewrite IH, <- app_assoc. reflexivity.
Qed.

Lemma balance_from_S k bal i :
  balance_from s srt start k bal (S i)
  = update_balance (balance_from s srt start k bal i)
                   (txs_on s srt start (k + S i)).
Proof.
  revert k bal. induction i as [|i IH]; intros k bal.
  - cbn. now replace (k + 1)%nat with (S k) by lia.
  - change (balance_from s srt start k bal (S (S i)))
      with (balance_from s srt start (S k)
              (update_balance bal (txs_on s srt start k)) (S i)).
    rewrite IH. cbn [balance_from].
    now replace (S k + S i)%nat with (k + S (S i))%nat by lia.
Qed.

Lemma emitted_nth n : forall k bal i e,
  nth_error (emitted s srt start k n bal) i = Some e <->
  (i < n)%nat
  /\ (forall j, (j < i)%nat -> 0 < balance_from s srt start k bal j)
  /\ e = Entry.mk (Datetime.add_days start (k + i))
                  (txs_on s srt start (k + i))
                  (balance_from s srt start k bal i).
Proof.
  induction n as [|n IH]; intros k bal i e.
  - cbn. destruct i; cbn; split; try discriminate; intros (H & _); lia.
  - cbn [emitted]. cbv zeta.
    destruct i as [|i].
    + replace (k + 0)%nat with k by lia. cbn [balance_from].
      destruct (update_balance bal (txs_on s srt start k) <=? 0);
        cbn [nth_error].
      * split.
        -- intros [= <-]. split; [lia|]. split; [intros j Hj; lia|reflexivity].
        -- intros (_ & _ & ->). reflexivity.
      * split.
        -- intros [= <-]. split; [lia|]. split; [intros j Hj; lia|reflexivity].
        -- intros (_ & _ & ->). reflexivity.
    + replace (k + S i)%nat with (S k + i)%nat by lia.
      destruct (Z.leb_spec (update_balance bal (txs_on s srt start k)) 0)
        as [Hle|Hgt]; cbn [nth_error].
      * split.
        -- destruct i; discriminate.
        -- intros (_ & Hpos & _). specialize (Hpos O ltac:(lia)).
           cbn in Hpos. lia.
      * rewrite IH. cbn [balance_from]. split.
        -- intros (Hi & Hpos & ->). split; [lia|]. split; [|reflexivity].
           intros [|j] Hj; cbn [balance_from]; [lia|apply Hpos; lia].
        -- intros (Hi & Hpos & ->). split; [lia|]. split; [|reflexivity].
           intros j Hj. apply (Hpos (S j)). lia.
Qed.
End Loop.

(** ** The ledger, entry by entry *)

Lemma balance_after_from w i :
  balance_after w i
  = balance_from (self w) (sorted_transactions w) (start_date w) 0
                 (initial_balance (self w)) i.
Proof.
  induction i as [|i IH]; [reflexivity|].
  rewrite balance_from_S, <- IH. reflexivity.
Qed.

(** Entry [i] exists exactly when the horizon reaches it and every earlier
    day left a positive balance; it is then [entry_at w i]. *)
Lemma ledger_nth w max_days i e :
  nth_error (ledger w max_days) i = Some e <->
  (i < Z.to_nat max_days)%nat
  /\ (forall j, (j < i)%nat -> 0 < balance_after w j)
  /\ e = entry_at w i.
Proof.
  unfold ledger, forecast_data, range.
  rewrite forecast_loop_emitted, app_nil_l, emitted_nth.
  unfold entry_at, applied_at, date_at, start_date, sorted_transactions, txs_on.
  cbn [Nat.add].
  split; intros (Hi & Hpos & ->); (split; [exact Hi|]); split.
  - intros j Hj. rewrite balance_after_from. now apply Hpos.
  - now rewrite balance_after_from.
  - intros j Hj. rewrite <- balance_after_from. now apply Hpos.
  - now rewrite balance_after_from.
Qed.

Lemma ledger_length_le w max_days :
  (List.length (ledger w max_days) <= Z.to_nat max_days)%nat.
Proof.
  destruct (Nat.le_gt_cases (List.length (ledger w max_days)) (Z.to_nat max_days))
    as [H|H]; [exact H|].
  destruct (nth_error (ledger w max_days) (Z.to_nat max_days)) eqn:E.
  - apply ledger_nth in E. lia.
  - apply nth_error_None in E. lia.
Qed.

Lemma ledger_prefix w max_days i j e :
  nth_error (ledger w max_days) i = Some e -> (j <= i)%nat ->
  nth_error (ledger w max_days) j = Some (entry_at w j).
Proof.
  intros H Hj. apply ledger_nth in H. destruct H as (Hi & Hpos & _).
  apply ledger_nth. split; [lia|]. split; [|reflexivity].
  intros k Hk. apply Hpos. lia.
Qed.

(** An entry with a balance [<= 0] is the last one. *)
Lemma ledger_stops w max_days i e :
  nth_error (ledger w max_days) i = Some e -> Entry.balance e <= 0 ->
  List.length (ledger w max_days) = S i.
Proof.
  intros H Hle.
  assert (Hlt : (i < List.length (ledger w max_days))%nat)
    by (apply nth_error_Some; congruence).
  destruct (nth_error (ledger w max_days) (S i)) eqn:E.
  - apply ledger_nth in E. destruct E as (_ & Hpos & _).
    apply ledger_nth in H. destruct H as (_ & _ & ->).
    specialize (Hpos i ltac:(lia)). cbn in Hle. lia.
  - apply nth_error_None in E. lia.
Qed.

(** An entry with a positive balance is followed by the next day's entry
    while the horizon lasts. *)
Lemma ledger_continues w max_days i e :
  nth_error (ledger w max_days) i = Some e -> 0 < Entry.balance e ->
  (S i < Z.to_nat max_days)%nat ->
  nth_error (ledger w max_days) (S i) = Some (entry_at w (S i)).
Proof.
  intros H Hpos Hi. apply ledger_nth in H. destruct H as (_ & Hbefore & ->).
  apply ledger_nth. split; [exact Hi|]. split; [|reflexivity].
  intros j Hj. destruct (Nat.eq_dec j i) as [->|Hne]; [exact Hpos|].
  apply Hbefore. lia.
Qed.

Lemma on_date_sorted w d :
  filter (on_date d) (sorted_transactions w)
  = filter (on_date d) (one_time_transactions (self w)).
Proof. apply (sorted_filter date_key (Datetime.date d)). Qed.

Lemma sumZ_expense_dict l :
  sumZ (map DayTransaction.amount (map expense_dict l))
  = - sumZ (map Transaction.amount l).
Proof. unfold sumZ. induction l as [|x l IH]; cbn in *; lia. Qed.

(** The amounts applied on a date add up to the specification's total. *)
Lemma applied_total w d :
  sumZ (map DayTransaction.amount
            (day_transactions (self w) (sorted_transactions w) d))
  = signed_total (self w) d.
Proof.
  rewrite day_transactions_eq, !map_app, !sumZ_app, on_date_sorted.
  rewrite sumZ_expense_dict, !map_map. unfold signed_total.
  cbn [income_dict one_time_dict DayTransaction.amount].
  enough (H : forall a b c, a + (- b + c) = a - b + c) by apply H.
  intros a b c. lia.
Qed.


(** One step of the running balance, on integers. *)
Lemma entry_balance_step w max_days i e :
  nth_error (ledger w max_days) i = Some e ->
  Entry.balance e
  = balance_before (self w) (ledger w max_days) i
    + signed_total (self w) (Entry.date e).
Proof.
  intros H.
  assert (He : e = entry_at w i) by (apply ledger_nth in H; tauto).
  destruct i as [|j]; cbn [balance_before].
  - subst e. cbn [entry_at Entry.balance Entry.date balance_after].
    rewrite update_balance_sum. unfold applied_at. now rewrite applied_total.
  - rewrite (ledger_prefix w max_days (S j) j e H) by lia.
    subst e. cbn [entry_at Entry.balance Entry.date balance_after].
    rewrite update_balance_sum. unfold applied_at. now rewrite applied_total.
Qed.

(** Every row of the data frame shows the date and the balance of one entry
    of the ledger. *)
Lemma rows_of_ledger out r :
  In r (_create_forecast_dataframe out) ->
  exists e, In e out
            /\ Row.Date r = Datetime.strftime_Ymd (Entry.date e)
            /\ Row.Balance r = Entry.balance e.
Proof.
  unfold _create_forecast_dataframe. rewrite in_flat_map.
  intros (e & He & Hr). exists e. split; [exact He|].
  destruct (Entry.transactions e) as [|t txs] eqn:E.
  - destruct Hr as [<-|[]]. split; reflexivity.
  - apply in_map_iff in Hr. destruct Hr as (t' & <- & _). split; reflexivity.
Qed.

(** ** The running balance *)

Example sample_ledger :
  map (fun e => (Datetime.day (Entry.date e),
                 map DayTransaction.name (Entry.transactions e),
                 Entry.balance e))
      (ledger sample_world 4)
  = [(1, [], 1000);
     (2, ["Shoes"; "Refund"], 940);
     (3, ["Pay"; "Fee"], 1090);
     (4, ["Sale"], 1160)]%string.
Proof. reflexivity. Qed.




(** ** Early termination *)

(** C2. On the first day whose transactions leave the running balance
    [<= 0], the ledger gets that day's entry and ends there: it has no entry
    for a later date, and an entry with a balance [<= 0] can only be that
    last one. *)
Theorem early_termination (w : World) (max_days : Z) (k : nat) :
  (k < Z.to_nat max_days)%nat ->
  (forall j, (j < k)%nat -> 0 < balance_after w j) ->
  balance_after w k <= 0 ->
  nth_error (ledger w max_days) k = Some (entry_at w k)
  /\ List.length (ledger w max_days) = S k
  /\ (forall e, In e (ledger w max_days) ->
        Date.leb (Datetime.date (Entry.date e)) (Datetime.date (date_at w k)) = true)
  /\ (forall i e, nth_error (ledger w max_days) i = Some e ->
        Entry.balance e <= 0 -> i = k).
Proof.
  intros Hk Hpos Hle.
  assert (Hnth : nth_error (ledger w max_days) k = Some (entry_at w k))
    by (apply ledger_nth; auto).
  assert (Hlen : List.length (ledger w max_days) = S k)
    by (apply (ledger_stops w max_days k _ Hnth); exact Hle).
  split; [exact Hnth|]. split; [exact Hlen|]. split.
  - intros e He. apply In_nth_error in He. destruct He as [i Hi].
    assert (Hik : (i < S k)%nat)
      by (rewrite <- Hlen; apply nth_error_Some; congruence).
    apply ledger_nth in Hi. destruct Hi as (_ & _ & ->).
    cbn [entry_at Entry.date]. unfold date_at. cbn [Datetime.add_days Datetime.date].
    apply add_days_leb. lia.
  - intros i e Hi Hb. pose proof (ledger_stops w max_days i e Hi Hb). lia.
Qed.

Lemma early_termination_witness :
  nth_error (ledger (world_of rent_tracker jan1) 10) 4
  = Some (entry_at (world_of rent_tracker jan1) 4)
  /\ List.length (ledger (world_of rent_tracker jan1) 10) = 5%nat
  /\ (forall e, In e (ledger (world_of rent_tracker jan1) 10) ->
        Date.leb (Datetime.date (Entry.date e))
                 (Datetime.date (date_at (world_of rent_tracker jan1) 4)) = true)
  /\ (forall i e, nth_error (ledger (world_of rent_tracker jan1) 10) i = Some e ->
        Entry.balance e <= 0 -> i = 4%nat).
Proof.
  apply (early_termination (world_of rent_tracker jan1) 10 4).
  - vm_compute. lia.
  - intros j Hj.
    destruct j as [|[|[|[|j]]]]; [reflexivity..|lia].
  - vm_compute. discriminate.
Defined.

(** ** The one-time income scenario *)

(** C3, as stated, fails: from a zero balance the first day ends at [0 <= 0],
    so the projection stops after one entry instead of five. *)
Lemma gift_scenario_has_one_entry :
  List.length (ledger (world_of gift_tracker jan1) 5) = 1%nat
  /\ map Entry.balance (ledger (world_of gift_tracker jan1) 5)
     <> [0; 0; 500; 500; 500].
Proof. split; [reflexivity|discriminate]. Qed.

(** C3, amended. With initial balance 0, no monthly transactions, one
    one-time income of 500 on the third day and horizon 5, the ledger is the
    single entry of the first day, without transactions and with balance 0. *)
Theorem gift_scenario_stops_on_first_day (w : World) (t : OneTimeTransaction.t) :
  initial_balance (self w) = 0 ->
  monthly_incomes (self w) = [] ->
  monthly_expenses (self w) = [] ->
  one_time_transactions (self w) = [t] ->
  date_key t = Date.add_days (Datetime.date (clock w)) 2 ->
  OneTimeTransaction.amount t = 500 ->
  ledger w 5 = [Entry.mk (start_date w) [] 0].
Proof.
  intros Hb Hi He Ho Hd Ha.
  assert (Hne : Date.eqb (date_key t) (Datetime.date (clock w)) = false).
  { destruct (Date.eqb _ _) eqn:E; [|reflexivity].
    apply eqb_eq in E. rewrite Hd in E.
    pose proof (add_days_later (Datetime.date (clock w)) 0 2 ltac:(lia)) as Hl.
    rewrite E in Hl. cbn [Date.add_days Nat.iter nat_rect] in Hl.
    rewrite ltb_irrefl in Hl. discriminate. }
  assert (Htx : applied_at w 0 = []).
  { unfold applied_at. rewrite day_transactions_eq, on_date_sorted, Hi, He, Ho.
    cbn [filter map app]. unfold on_date.
    replace (Datetime.date (date_at w 0)) with (Datetime.date (clock w))
      by reflexivity.
    rewrite Hne. reflexivity. }
  assert (H0 : nth_error (ledger w 5) 0 = Some (entry_at w 0)).
  { apply ledger_nth. split; [cbn; lia|]. split; [intros j Hj; lia|reflexivity]. }
  assert (He0 : entry_at w 0 = Entry.mk (start_date w) [] 0).
  { unfold entry_at. cbn [balance_after]. rewrite Htx, Hb. reflexivity. }
  rewrite He0 in H0.
  pose proof (ledger_stops w 5 0 _ H0 ltac:(cbn; lia)) as Hlen.
  destruct (ledger w 5) as [|e [|e' l]]; try discriminate.
  cbn in H0. congruence.
Qed.

Lemma gift_scenario_stops_on_first_day_witness :
  ledger (world_of gift_tracker jan1) 5
  = [Entry.mk (start_date (world_of gift_tracker jan1)) [] 0].
Proof.
  apply (gift_scenario_stops_on_first_day (world_of gift_tracker jan1)
           (OneTimeTransaction.mk (at_day 3) 500 "income" "Gift" "green"));
    reflexivity.
Defined.

(** ** Dates of the ledger *)

Lemma date_at_date w i :
  Datetime.date (date_at w i) = Date.add_days (Datetime.date (clock w)) i.
Proof. reflexivity. Qed.

(** C4. With a positive horizon the ledger is not empty and holds one entry
    per calendar day from the start date on: entry [i] is dated [i] days
    after the start date (the one date of the calendar whose ordinal is
    the start date's plus [i]), whether or not a transaction falls on that
    day; each entry is dated the day after the entry before it, dates increase
    strictly, and the ledger is shorter than the horizon only when its last
    entry has a balance [<= 0]. *)
Theorem consecutive_days (w : World) (max_days : Z) :
  0 < max_days ->
  Date.valid (Datetime.date (clock w)) ->
  (1 <= List.length (ledger w max_days) <= Z.to_nat max_days)%nat
  /\ (forall i, (i < List.length (ledger w max_days))%nat ->
        exists e, nth_error (ledger w max_days) i = Some e
                  /\ Entry.date e = date_at w i
                  /\ Date.valid (Datetime.date (Entry.date e))
                  /\ Date.toordinal (Datetime.date (Entry.date e))
                     = Date.toordinal (Datetime.date (clock w)) + Z.of_nat i
                  /\ (forall d, Date.valid d ->
                        Date.toordinal d
                        = Date.toordinal (Datetime.date (clock w)) + Z.of_nat i ->
                        d = Datetime.date (Entry.date e)))
  /\ (forall i e e', nth_error (ledger w max_days) i = Some e ->
        nth_error (ledger w max_days) (S i) = Some e' ->
        Datetime.date (Entry.date e') = Date.tomorrow (Datetime.date (Entry.date e)))
  /\ (forall i j e e', (i < j)%nat ->
        nth_error (ledger w max_days) i = Some e ->
        nth_error (ledger w max_days) j = Some e' ->
        Date.ltb (Datetime.date (Entry.date e)) (Datetime.date (Entry.date e')) = true)
  /\ ((List.length (ledger w max_days) < Z.to_nat max_days)%nat ->
        exists e, nth_error (ledger w max_days)
                            (List.length (ledger w max_days) - 1) = Some e
                  /\ Entry.balance e <= 0).
Proof.
  intros Hmax Hvalid.
  assert (H0 : nth_error (ledger w max_days) 0 = Some (entry_at w 0)).
  { apply ledger_nth. split; [lia|]. split; [intros j Hj; lia|reflexivity]. }
  assert (Hlen : (1 <= List.length (ledger w max_days))%nat).
  { enough (0 < List.length (ledger w max_days))%nat by lia.
    apply nth_error_Some. congruence. }
  pose proof (ledger_length_le w max_days) as Hle.
  split; [lia|]. split; [|split; [|split]].
  - intros i Hi. apply nth_error_Some in Hi.
    destruct (nth_error (ledger w max_days) i) as [e|] eqn:E; [|congruence].
    exists e. split; [reflexivity|].
    apply ledger_nth in E. destruct E as (_ & _ & ->).
    cbn [entry_at Entry.date]. rewrite date_at_date.
    split; [reflexivity|]. split; [now apply add_days_valid|].
    split; [now apply toordinal_add_days|].
    intros d Hd Hord. apply toordinal_inj; [exact Hd|now apply add_days_valid|].
    rewrite Hord. symmetry. now apply toordinal_add_days.
  - intros i e e' Hi Hi'.
    apply ledger_nth in Hi, Hi'.
    destruct Hi as (_ & _ & ->), Hi' as (_ & _ & ->).
    cbn [entry_at Entry.date]. rewrite !date_at_date. apply add_days_S.
  - intros i j e e' Hij Hi Hj.
    apply ledger_nth in Hi, Hj.
    destruct Hi as (_ & _ & ->), Hj as (_ & _ & ->).
    cbn [entry_at Entry.date]. rewrite !date_at_date.
    now apply add_days_later.
  - intros Hshort.
    set (n := List.length (ledger w max_days)) in *.
    destruct (nth_error (ledger w max_days) (n - 1)) as [e|] eqn:E.
    + exists e. split; [reflexivity|].
      destruct (Z.le_gt_cases (Entry.balance e) 0) as [Hb|Hb]; [exact Hb|].
      assert (Hnext : nth_error (ledger w max_days) (S (n - 1)) <> None).
      { rewrite (ledger_continues w max_days (n - 1) e E); [discriminate|lia|lia]. }
      apply nth_error_Some in Hnext. fold n in Hnext. lia.
    + apply nth_error_None in E. fold n in E. lia.
Qed.

Lemma consecutive_days_witness :
  0 < 4 /\ Date.valid (Datetime.date (clock april_world))
  /\ (1 <= List.length (ledger april_world 4) <= Z.to_nat 4)%nat.
Proof.
  assert (Hv : Date.valid (Datetime.date (clock april_world)))
    by (apply validb_spec; reflexivity).
  split; [lia|]. split; [exact Hv|].
  apply (consecutive_days april_world 4 ltac:(lia) Hv).
Defined.

(** ** Monthly transactions and the day of the month *)

Example april_ledger :
  map (fun e => (Datetime.month (Entry.date e), Datetime.day (Entry.date e),
                 map DayTransaction.name (Entry.transactions e),
                 Entry.balance e))
      (ledger april_world 4)
  = [(4, 29, [], 500); (4, 30, ["Interest"], 520);
     (5, 1, [], 520); (5, 2, [], 520)]%string.
Proof. reflexivity. Qed.




(** ** Determinism and the order of one-time transactions *)

Lemma forecast_data_clock_date s now now' max_days :
  Datetime.date now = Datetime.date now' ->
  forecast_data s now max_days = forecast_data s now' max_days.
Proof.
  intros H. unfold forecast_data, Datetime.at_midnight. now rewrite H.
Qed.

Lemma day_transactions_fields s s' srt d :
  monthly_incomes s = monthly_incomes s' ->
  monthly_expenses s = monthly_expenses s' ->
  day_transactions s srt d = day_transactions s' srt d.
Proof. intros Hi He. unfold day_transactions. now rewrite Hi, He. Qed.

Lemma forecast_loop_fields s s' srt start offsets acc bal :
  monthly_incomes s = monthly_incomes s' ->
  monthly_expenses s = monthly_expenses s' ->
  forecast_loop s srt start offsets acc bal
  = forecast_loop s' srt start offsets acc bal.
Proof.
  intros Hi He. revert acc bal.
  induction offsets as [|k rest IH]; intros acc bal; [reflexivity|].
  cbn [forecast_loop]. rewrite (day_transactions_fields s s' _ _ Hi He).
  destruct (_ <=? 0); [reflexivity|apply IH].
Qed.

(** The ledger reads four fields of the tracker and the date of the clock. *)
Lemma forecast_data_fields s s' now now' max_days :
  initial_balance s = initial_balance s' ->
  monthly_incomes s = monthly_incomes s' ->
  monthly_expenses s = monthly_expenses s' ->
  one_time_transactions s = one_time_transactions s' ->
  Datetime.date now = Datetime.date now' ->
  forecast_data s now max_days = forecast_data s' now' max_days.
Proof.
  intros Hb Hi He Ho Hd.
  rewrite (forecast_data_clock_date s now now' max_days Hd).
  unfold forecast_data. rewrite Hb, Ho. now apply forecast_loop_fields.
Qed.

Lemma generate_daily_forecast_run max_days w :
  generate_daily_forecast max_days w
  = (Return (_create_forecast_dataframe (ledger w max_days)), w).
Proof. reflexivity. Qed.

(** C6. Two calls that find the same initial balance, monthly lists,
    one-time list, horizon and start date return the same data frame from
    the same ledger, and calling twice in a row returns the same value
    twice.  The one-time transactions are taken in ascending date order, and
    those of one date are applied in the order in which they were entered
    in the one-time list. *)
Theorem deterministic_and_stable (w1 w2 : World) (max_days : Z) :
  initial_balance (self w1) = initial_balance (self w2) ->
  monthly_incomes (self w1) = monthly_incomes (self w2) ->
  monthly_expenses (self w1) = monthly_expenses (self w2) ->
  one_time_transactions (self w1) = one_time_transactions (self w2) ->
  Datetime.date (clock w1) = Datetime.date (clock w2) ->
  fst (generate_daily_forecast max_days w1) = fst (generate_daily_forecast max_days w2)
  /\ ledger w1 max_days = ledger w2 max_days
  /\ (r <- generate_daily_forecast max_days ;;
      r' <- generate_daily_forecast max_days ;;
      ret (r, r')) w1
     = (Return (_create_forecast_dataframe (ledger w1 max_days),
                _create_forecast_dataframe (ledger w1 max_days)), w1)
  /\ Permutation (one_time_transactions (self w1)) (sorted_transactions w1)
  /\ StronglySorted (key_le date_key) (sorted_transactions w1)
  /\ (forall d, filter (on_date d) (sorted_transactions w1)
                = filter (on_date d) (one_time_transactions (self w1)))
  /\ (forall i e, nth_error (ledger w1 max_days) i = Some e ->
        exists monthly,
          Entry.transactions e
          = monthly
            ++ map one_time_dict
                   (filter (on_date (Entry.date e))
                           (one_time_transactions (self w1)))).
Proof.
  intros Hb Hi He Ho Hd.
  assert (Hl : ledger w1 max_days = ledger w2 max_days)
    by (unfold ledger; now apply forecast_data_fields).
  split; [rewrite !generate_daily_forecast_run; cbn [fst]; now rewrite Hl|].
  split; [exact Hl|].
  split; [reflexivity|].
  split; [apply sorted_perm|].
  split; [apply sorted_sorted|].
  split; [intros d; apply on_date_sorted|].
  intros i e H. apply ledger_nth in H. destruct H as (_ & _ & ->).
  cbn [entry_at Entry.transactions Entry.date]. unfold applied_at.
  rewrite day_transactions_eq, on_date_sorted, app_assoc. eauto.
Qed.

Lemma deterministic_and_stable_witness :
  fst (generate_daily_forecast 4 sample_world)
  = fst (generate_daily_forecast 4 same_day_world)
  /\ map DayTransaction.name (Entry.transactions (entry_at sample_world 1))
     = ["Shoes"; "Refund"]%string.
Proof.
  split.
  - apply (deterministic_and_stable sample_world same_day_world 4); reflexivity.
  - reflexivity.
Defined.

(** ** Purity of the projection *)

(** C9, as stated, fails: the projection also reads the system clock.  The
    same tracker and horizon give different data frames on different
    days. *)
Lemma forecast_depends_on_clock :
  self sample_world = self next_day_world
  /\ fst (generate_daily_forecast 4 sample_world)
     <> fst (generate_daily_forecast 4 next_day_world).
Proof. split; [reflexivity|]. vm_compute. discriminate. Qed.

(** C9, amended. [generate_daily_forecast] returns a value that is a
    function of the tracker's initial balance, monthly lists, one-time list,
    the horizon and the calendar date read from the system clock, and of
    nothing else; it never raises, and it leaves the whole world as it was:
    the five fields of the tracker, the data file and the number of writes,
    and the printed output. *)
Theorem forecast_is_pure (w : World) (max_days : Z) :
  generate_daily_forecast max_days w
  = (Return (_create_forecast_dataframe
               (forecast_data
                  (mkFinanceTracker (initial_balance (self w)) 0
                     (monthly_incomes (self w)) (monthly_expenses (self w))
                     (one_time_transactions (self w)))
                  (Datetime.mk (Datetime.date (clock w)) 0 0 0 0)
                  max_days)),
     w).
Proof.
  rewrite generate_daily_forecast_run. unfold ledger.
  rewrite (forecast_data_fields (self w)
             (mkFinanceTracker (initial_balance (self w)) 0
                (monthly_incomes (self w)) (monthly_expenses (self w))
                (one_time_transactions (self w)))
             (clock w) (Datetime.mk (Datetime.date (clock w)) 0 0 0 0) max_days);
    reflexivity.
Qed.

(** ** Validation of the add operations *)

Lemma raise_if_false (e : exn) (w : World) : raise_if false e w = (Return tt, w).
Proof. reflexivity. Qed.

Lemma raise_if_true (e : exn) (w : World) : raise_if true e w = (Raise e, w).
Proof. reflexivity. Qed.

Lemma save_data_returns w : fst (save_data w) = Return tt.
Proof. unfold save_data. destruct (write_failure w); reflexivity. Qed.

Lemma save_data_self w : self (snd (save_data w)) = self w.
Proof. unfold save_data. destruct (write_failure w); reflexivity. Qed.

Lemma save_data_writes w : write_calls (snd (save_data w)) = S (write_calls w).
Proof. unfold save_data. destruct (write_failure w); reflexivity. Qed.

Lemma day_guard day :
  negb ((1 <=? day) && (day <=? 31)) = false <-> 1 <= day <= 31.
Proof. rewrite negb_false_iff, andb_true_iff, !Z.leb_le. tauto. Qed.

Lemma date_or_now_run date w :
  exists d, date_or_now date w = (Return d, w).
Proof. destruct date as [d|]; eexists; reflexivity. Qed.

(** Unfolds an add operation down to the guards. *)
Ltac run_guards :=
  unfold add_income, add_expense, add_monthly_income, add_monthly_expense,
         update_initial_balance, bind.

(** C7, as stated, fails: the monthly operations test the day first, so a
    call with a day outside [1,31] and an amount [<= 0] raises the day
    error, not the amount error. *)
Lemma day_is_checked_before_amount :
  exists e, fst (add_monthly_income 32 0 "Pay" "green" sample_world) = Raise e
            /\ InvalidDay e /\ ~ InvalidAmount e.
Proof.
  exists (ValueError "Day must be between 1 and 31").
  split; [reflexivity|]. split; [reflexivity|].
  intros [H|H]; discriminate H.
Qed.

(** C7, amended. [add_monthly_income] and [add_monthly_expense] fail with
    [InvalidDay] for every day outside [1,31]; [add_income] and
    [add_expense] fail with [InvalidAmount] for every amount [<= 0], and so
    do the monthly operations when the day is in [1,31]; for an amount
    [> 0] (and, for the monthly operations, a day in [1,31]) the operation
    returns and its transaction is at the end of its list. *)
Theorem add_validation (w : World) (day amount : Z)
    (date : option Datetime.t) (oname : option string) (name color : string) :
  (~ 1 <= day <= 31 ->
     (exists e, fst (add_monthly_income day amount name color w) = Raise e
                /\ InvalidDay e)
     /\ (exists e, fst (add_monthly_expense day amount name color w) = Raise e
                   /\ InvalidDay e))
  /\ (amount <= 0 ->
        (exists e, fst (add_income amount date oname color w) = Raise e
                   /\ InvalidAmount e)
        /\ (exists e, fst (add_expense amount date oname color w) = Raise e
                      /\ InvalidAmount e)
        /\ (1 <= day <= 31 ->
              (exists e, fst (add_monthly_income day amount name color w) = Raise e
                         /\ InvalidAmount e)
              /\ (exists e, fst (add_monthly_expense day amount name color w) = Raise e
                            /\ InvalidAmount e)))
  /\ (0 < amount ->
        (exists d, fst (add_income amount date oname color w) = Return tt
           /\ self (snd (add_income amount date oname color w))
              = append_one_time
                  (OneTimeTransaction.mk d amount "income"
                     (str_or oname "One-time Income") color) (self w))
        /\ (exists d, fst (add_expense amount date oname color w) = Return tt
              /\ self (snd (add_expense amount date oname color w))
                 = append_one_time
                     (OneTimeTransaction.mk d (- amount) "expense"
                        (str_or oname "One-time Expense") color) (self w))
        /\ (1 <= day <= 31 ->
              fst (add_monthly_income day amount name color w) = Return tt
              /\ self (snd (add_monthly_income day amount name color w))
                 = append_monthly_income (Transaction.mk day amount name color) (self w)
              /\ fst (add_monthly_expense day amount name color w) = Return tt
              /\ self (snd (add_monthly_expense day amount name color w))
                 = append_monthly_expense (Transaction.mk day amount name color) (self w))).
Proof.
  split; [|split].
  - intros Hday.
    assert (G : negb ((1 <=? day) && (day <=? 31)) = true).
    { destruct (negb _) eqn:E; [reflexivity|]. apply day_guard in E. tauto. }
    split; eexists; run_guards; rewrite G, raise_if_true;
      (split; [reflexivity|reflexivity]).
  - intros Hamt. apply Z.leb_le in Hamt.
    split; [|split].
    + eexists. run_guards. rewrite Hamt, raise_if_true.
      split; [reflexivity|left; reflexivity].
    + eexists. run_guards. rewrite Hamt, raise_if_true.
      split; [reflexivity|right; reflexivity].
    + intros Hday. apply day_guard in Hday.
      split; eexists; run_guards; rewrite Hday, raise_if_false, Hamt, raise_if_true.
      * split; [reflexivity|left; reflexivity].
      * split; [reflexivity|right; reflexivity].
  - intros Hamt. apply Z.leb_gt in Hamt.
    split; [|split].
    + destruct (date_or_now_run date w) as [d Hd]. exists d.
      run_guards. rewrite Hamt, raise_if_false, Hd. cbn [update_self].
      rewrite save_data_returns, save_data_self. split; reflexivity.
    + destruct (date_or_now_run date w) as [d Hd]. exists d.
      run_guards. rewrite Hamt, raise_if_false, Hd. cbn [update_self].
      rewrite save_data_returns, save_data_self. split; reflexivity.
    + intros Hday. apply day_guard in Hday.
      run_guards. rewrite Hday, !raise_if_false, Hamt, !raise_if_false.
      cbn [update_self]. rewrite !save_data_returns, !save_data_self.
      repeat split; reflexivity.
Qed.

Lemma add_validation_witness :
  (exists e, fst (add_monthly_income 32 10 "Pay" "green" sample_world) = Raise e
             /\ InvalidDay e)
  /\ (exists e, fst (add_expense (-5) None None "red" sample_world) = Raise e
                /\ InvalidAmount e)
  /\ fst (add_monthly_expense 31 10 "Club" "red" sample_world) = Return tt.
Proof.
  destruct (add_validation sample_world 32 10 None None "Pay" "green")
    as (Hday & _ & _).
  destruct (add_validation sample_world 1 (-5) None None "x" "red")
    as (_ & Hamount & _).
  destruct (add_validation sample_world 31 10 None None "Club" "red")
    as (_ & _ & Hok).
  split; [apply Hday; lia|].
  split; [apply Hamount; lia|].
  apply Hok; lia.
Defined.

(** ** Failed operations leave no trace *)

(** C8. When an add operation raises, the world is exactly as before the
    call: the three transaction lists and the two balances are unchanged,
    nothing was appended, the data file was not written (the count of
    writes is unchanged) and nothing was printed. *)
Theorem failed_add_changes_nothing (op : add_operation) (w : World) (e : exn) :
  fst (run_add op w) = Raise e ->
  snd (run_add op w) = w
  /\ self (snd (run_add op w)) = self w
  /\ data_file (snd (run_add op w)) = data_file w
  /\ write_calls (snd (run_add op w)) = write_calls w.
Proof.
  intros H.
  enough (Hw : snd (run_add op w) = w) by (rewrite Hw; auto).
  destruct op as [amount date name color|amount date name color
                 |day amount name color|day amount name color];
    cbn [run_add] in *; revert H; run_guards.
  - destruct (amount <=? 0); [reflexivity|]. rewrite raise_if_false.
    destruct (date_or_now_run date w) as [d ->]. cbn [update_self].
    intros H. rewrite save_data_returns in H. discriminate.
  - destruct (amount <=? 0); [reflexivity|]. rewrite raise_if_false.
    destruct (date_or_now_run date w) as [d ->]. cbn [update_self].
    intros H. rewrite save_data_returns in H. discriminate.
  - destruct (negb _); [reflexivity|]. rewrite raise_if_false.
    destruct (amount <=? 0); [reflexivity|]. rewrite raise_if_false.
    cbn [update_self]. intros H. rewrite save_data_returns in H. discriminate.
  - destruct (negb _); [reflexivity|]. rewrite raise_if_false.
    destruct (amount <=? 0); [reflexivity|]. rewrite raise_if_false.
    cbn [update_self]. intros H. rewrite save_data_returns in H. discriminate.
Qed.

Lemma failed_add_changes_nothing_witness :
  snd (run_add (AddMonthlyExpense 0 25 "Club" "red") next_day_world) = next_day_world
  /\ self (snd (run_add (AddMonthlyExpense 0 25 "Club" "red") next_day_world))
     = self next_day_world
  /\ data_file (snd (run_add (AddMonthlyExpense 0 25 "Club" "red") next_day_world))
     = data_file next_day_world
  /\ write_calls (snd (run_add (AddMonthlyExpense 0 25 "Club" "red") next_day_world))
     = write_calls next_day_world.
Proof.
  apply (failed_add_changes_nothing (AddMonthlyExpense 0 25 "Club" "red")
           next_day_world (ValueError "Day must be between 1 and 31")).
  reflexivity.
Defined.

(** ** Updating the initial balance *)

(** C10. [update_initial_balance] raises for every balance below 0 and
    leaves the world, and so both stored balances, as they were; for every
    balance [>= 0] it returns, both [initial_balance] and [current_balance]
    are the given value, and the three lists are unchanged. *)
Theorem update_initial_balance_spec (w : World) (balance : Z) :
  (balance < 0 ->
     update_initial_balance balance w
     = (Raise (ValueError "Initial balance cannot be negative"), w))
  /\ (0 <= balance ->
        fst (update_initial_balance balance w) = Return tt
        /\ initial_balance (self (snd (update_initial_balance balance w))) = balance
        /\ current_balance (self (snd (update_initial_balance balance w))) = balance
        /\ monthly_incomes (self (snd (update_initial_balance balance w)))
           = monthly_incomes (self w)
        /\ monthly_expenses (self (snd (update_initial_balance balance w)))
           = monthly_expenses (self w)
        /\ one_time_transactions (self (snd (update_initial_balance balance w)))
           = one_time_transactions (self w)).
Proof.
  split; intros Hb; run_guards.
  - apply Z.ltb_lt in Hb. now rewrite Hb, raise_if_true.
  - apply Z.ltb_ge in Hb. rewrite Hb, raise_if_false. cbn [update_self].
    rewrite save_data_returns, save_data_self. repeat split; reflexivity.
Qed.

Lemma update_initial_balance_spec_witness :
  update_initial_balance (-1) sample_world
  = (Raise (ValueError "Initial balance cannot be negative"), sample_world)
  /\ initial_balance (self (snd (update_initial_balance 0 sample_world))) = 0.
Proof.
  destruct (update_initial_balance_spec sample_world (-1)) as (Hneg & _).
  destruct (update_initial_balance_spec sample_world 0) as (_ & Hok).
  split; [apply Hneg; lia|apply Hok; lia].
Defined.

(** * Further properties of the code *)

(** ** The data frame *)

Lemma transaction_rows_columns e txs :
  map Row.Balance (map (transaction_row e) txs)
  = repeat (Entry.balance e) (List.length txs)
  /\ map Row.Date (map (transaction_row e) txs)
     = repeat (Datetime.strftime_Ymd (Entry.date e)) (List.length txs).
Proof.
  induction txs as [|t txs [IHb IHd]]; [split; reflexivity|].
  cbn [map List.length repeat]. rewrite IHb, IHd. split; reflexivity.
Qed.

Lemma dataframe_cons e out :
  _create_forecast_dataframe (e :: out)
  = _create_forecast_dataframe [e] ++ _create_forecast_dataframe out.
Proof.
  unfold _create_forecast_dataframe. cbn [flat_map]. now rewrite app_nil_r.
Qed.

Lemma entry_rows_columns e :
  List.length (_create_forecast_dataframe [e]) = rows_of_entry e
  /\ map Row.Balance (_create_forecast_dataframe [e])
     = repeat (Entry.balance e) (rows_of_entry e)
  /\ map Row.Date (_create_forecast_dataframe [e])
     = repeat (Datetime.strftime_Ymd (Entry.date e)) (rows_of_entry e).
Proof.
  unfold _create_forecast_dataframe, rows_of_entry. cbn [flat_map].
  rewrite app_nil_r.
  destruct (Entry.transactions e) as [|t txs]; [repeat split|].
  destruct (transaction_rows_columns e (t :: txs)) as [Hb Hd].
  rewrite Hb, Hd, length_map.
  replace (Nat.max 1 (List.length (t :: txs))) with (List.length (t :: txs))
    by (cbn [List.length]; lia).
  repeat split.
Qed.

(** X1. An entry takes one row per transaction, and one row when it has no
    transaction; every row of an entry shows the entry's date and its
    balance, which is the balance at the end of that day. *)
Theorem dataframe_rows_per_entry (out : list Entry.t) :
  List.length (_create_forecast_dataframe out) = list_sum (map rows_of_entry out)
  /\ map Row.Balance (_create_forecast_dataframe out)
     = flat_map (fun e => repeat (Entry.balance e) (rows_of_entry e)) out
  /\ map Row.Date (_create_forecast_dataframe out)
     = flat_map (fun e => repeat (Datetime.strftime_Ymd (Entry.date e))
                                 (rows_of_entry e)) out.
Proof.
  induction out as [|e out (IHn & IHb & IHd)]; [repeat split|].
  destruct (entry_rows_columns e) as (Hn & Hb & Hd).
  rewrite dataframe_cons, length_app, !map_app, IHn, IHb, IHd, Hn, Hb, Hd.
  repeat split.
Qed.

Lemma transaction_row_columns e t :
  0 <= Row.Income (transaction_row e t)
  /\ 0 <= Row.Expense (transaction_row e t)
  /\ (Row.Income (transaction_row e t) = 0 \/ Row.Expense (transaction_row e t) = 0)
  /\ Row.Income (transaction_row e t) - Row.Expense (transaction_row e t)
     = DayTransaction.amount t.
Proof.
  cbn [transaction_row Row.Income Row.Expense].
  destruct (Z.ltb_spec 0 (DayTransaction.amount t)),
           (Z.ltb_spec (DayTransaction.amount t) 0); lia.
Qed.

(** X2. In every row the income and the expense are non-negative and at
    most one of them is not zero; over the rows of one entry, incomes minus
    expenses is the sum of the signed amounts of the entry's transactions. *)
Theorem income_expense_columns (out : list Entry.t) :
  (forall r, In r (_create_forecast_dataframe out) ->
     0 <= Row.Income r /\ 0 <= Row.Expense r
     /\ (Row.Income r = 0 \/ Row.Expense r = 0))
  /\ (forall e,
        sumZ (map Row.Income (_create_forecast_dataframe [e]))
        - sumZ (map Row.Expense (_create_forecast_dataframe [e]))
        = sumZ (map DayTransaction.amount (Entry.transactions e))).
Proof.
  split.
  - unfold _create_forecast_dataframe. intros r Hr.
    apply in_flat_map in Hr. destruct Hr as (e & _ & Hr).
    destruct (Entry.transactions e) as [|t txs].
    + destruct Hr as [<-|[]]. cbn. lia.
    + apply in_map_iff in Hr. destruct Hr as (t' & <- & _).
      pose proof (transaction_row_columns e t'). tauto.
  - intros e. unfold _create_forecast_dataframe. cbn [flat_map].
    rewrite app_nil_r.
    destruct (Entry.transactions e) as [|t txs]; [reflexivity|].
    generalize (t :: txs) as l. intros l.
    induction l as [|x l IH]; [reflexivity|].
    cbn [map]. unfold sumZ in *. cbn [fold_right].
    pose proof (transaction_row_columns e x) as (_ & _ & _ & Hx). lia.
Qed.

(** ** The forecast *)

Lemma balance_after_closed w i :
  balance_after w i = initial_balance (self w) + total_through w (S i).
Proof.
  induction i as [|i IH].
  - cbn [balance_after total_through]. rewrite update_balance_sum.
    unfold applied_at. rewrite applied_total. lia.
  - cbn [balance_after]. rewrite update_balance_sum, IH.
    unfold applied_at. rewrite applied_total.
    cbn [total_through]. lia.
Qed.

(** X3. When the initial balance and the amounts are integers, whose
    additions are exact, the balance of entry [i] is the initial balance
    plus the signed totals of all the dates from the start date to the
    entry's date. *)
Theorem balance_closed_form (w : World) (max_days : Z) (i : nat) (e : Entry.t) :
  nth_error (ledger w max_days) i = Some e ->
  Entry.balance e = initial_balance (self w) + total_through w (S i).
Proof.
  intros H. apply ledger_nth in H. destruct H as (_ & _ & ->).
  cbn [entry_at Entry.balance]. apply balance_after_closed.
Qed.

Lemma balance_closed_form_witness :
  Entry.balance (entry_at sample_world 2)
  = initial_balance (self sample_world) + total_through sample_world 3.
Proof.
  apply (balance_closed_form sample_world 4 2). reflexivity.
Defined.

Lemma forecast_rows_nonempty w max_days :
  0 < max_days ->
  exists r rows,
    _create_forecast_dataframe (ledger w max_days) = r :: rows
    /\ Row.Date r = Datetime.strftime_Ymd (clock w).
Proof.
  intros H.
  assert (H0 : nth_error (ledger w max_days) 0 = Some (entry_at w 0)).
  { apply ledger_nth. split; [lia|]. split; [intros j Hj; lia|reflexivity]. }
  destruct (ledger w max_days) as [|e out]; [discriminate|].
  cbn in H0. injection H0 as ->.
  unfold _create_forecast_dataframe. cbn [flat_map].
  destruct (Entry.transactions (entry_at w 0)) as [|t txs];
    cbn [map app]; eexists; eexists; (split; [reflexivity|reflexivity]).
Qed.

(** X4. A horizon of zero or fewer days gives an empty ledger and an empty
    data frame; a positive horizon always gives at least one row, and the
    first row is dated at the date of the clock. *)
Theorem forecast_empty_iff_no_horizon (w : World) (max_days : Z) :
  (max_days <= 0 ->
     ledger w max_days = []
     /\ fst (generate_daily_forecast max_days w) = Return [])
  /\ (0 < max_days ->
        exists r rows,
          fst (generate_daily_forecast max_days w) = Return (r :: rows)
          /\ Row.Date r = Datetime.strftime_Ymd (clock w)).
Proof.
  split.
  - intros H.
    assert (Hl : ledger w max_days = []).
    { unfold ledger, forecast_data, range.
      replace (Z.to_nat max_days) with O by lia. reflexivity. }
    split; [exact Hl|]. rewrite generate_daily_forecast_run, Hl. reflexivity.
  - intros H. rewrite generate_daily_forecast_run. cbn [fst].
    destruct (forecast_rows_nonempty w max_days H) as (r & rows & -> & Hd).
    eauto.
Qed.

Lemma forecast_empty_iff_no_horizon_witness :
  ledger sample_world 0 = []
  /\ exists r rows,
       fst (generate_daily_forecast 4 sample_world) = Return (r :: rows)
       /\ Row.Date r = "2024-01-01"%string.
Proof.
  destruct (forecast_empty_iff_no_horizon sample_world 0) as (Hempty & _).
  destruct (forecast_empty_iff_no_horizon sample_world 4) as (_ & Hrows).
  split; [apply Hempty; lia|apply Hrows; lia].
Defined.

Lemma sumZ_filter_nonneg {A} (f : A -> Z) (p : A -> bool) (l : list A) :
  Forall (fun t => 0 <= f t) l -> 0 <= sumZ (map f (filter p l)).
Proof.
  unfold sumZ. induction 1 as [|x l Hx _ IH]; cbn; [lia|].
  destruct (p x); cbn; lia.
Qed.

(** X5. With a positive initial balance, no monthly expense and no negative
    amount among the monthly incomes and the one-time transactions, the
    projection never stops early: the ledger has one entry for each day of
    the horizon, and no balance is below the initial balance or below the
    balance of the day before. *)
Theorem no_outflow_runs_full_horizon (w : World) (max_days : Z) :
  0 < initial_balance (self w) ->
  monthly_expenses (self w) = [] ->
  Forall (fun t => 0 <= Transaction.amount t) (monthly_incomes (self w)) ->
  Forall (fun t => 0 <= OneTimeTransaction.amount t) (one_time_transactions (self w)) ->
  List.length (ledger w max_days) = Z.to_nat max_days
  /\ (forall i e, nth_error (ledger w max_days) i = Some e ->
        initial_balance (self w) <= Entry.balance e
        /\ balance_before (self w) (ledger w max_days) i <= Entry.balance e).
Proof.
  intros Hb He Hi Ho.
  assert (Htot : forall d, 0 <= signed_total (self w) d).
  { intros d. unfold signed_total. rewrite He. cbn [filter map].
    pose proof (sumZ_filter_nonneg Transaction.amount (on_day d) _ Hi).
    pose proof (sumZ_filter_nonneg OneTimeTransaction.amount (on_date d) _ Ho).
    unfold sumZ at 2. cbn [fold_right]. lia. }
  assert (Hthrough : forall n, 0 <= total_through w n).
  { induction n as [|n IH]; cbn [total_through]; [lia|].
    specialize (Htot (date_at w n)). lia. }
  assert (Hpos : forall j, 0 < balance_after w j).
  { intros j. rewrite balance_after_closed. specialize (Hthrough (S j)). lia. }
  split.
  - pose proof (ledger_length_le w max_days) as Hle.
    destruct (Nat.eq_dec (List.length (ledger w max_days)) (Z.to_nat max_days))
      as [E|Hne]; [exact E|].
    assert (Hnone : nth_error (ledger w max_days) (List.length (ledger w max_days))
                    = None) by (apply nth_error_None; lia).
    set (n := List.length (ledger w max_days)) in *.
    rewrite (proj2 (ledger_nth w max_days n (entry_at w n))) in Hnone;
      [discriminate|].
    split; [lia|]. split; [intros j _; apply Hpos|reflexivity].
  - intros i e H. split.
    + apply ledger_nth in H. destruct H as (_ & _ & ->).
      cbn [entry_at Entry.balance]. rewrite balance_after_closed.
      specialize (Hthrough (S i)). lia.
    + rewrite (entry_balance_step w max_days i e H).
      specialize (Htot (Entry.date e)). lia.
Qed.

Lemma no_outflow_runs_full_horizon_witness :
  List.length (ledger (world_of gift_saver jan1) 40) = 40%nat.
Proof.
  apply (no_outflow_runs_full_horizon (world_of gift_saver jan1) 40).
  - reflexivity.
  - reflexivity.
  - repeat constructor; cbn; lia.
  - repeat constructor; cbn; lia.
Defined.

(** ** Effects of the add operations *)

Lemma save_data_run w : save_data w = (Return tt, snd (save_data w)).
Proof. unfold save_data. destruct (write_failure w); reflexivity. Qed.

Lemma run_add_cases op w :
  (accepts op = true /\ run_add op w = (Return tt, saved (added op w) w))
  \/ (accepts op = false /\ exists e, run_add op w = (Raise e, w)).
Proof.
  destruct op as [amount date name color|amount date name color
                 |day amount name color|day amount name color];
    cbn [run_add accepts added]; run_guards.
  - rewrite Z.leb_antisym. destruct (0 <? amount); cbn [negb].
    + left. split; [reflexivity|]. rewrite raise_if_false.
      destruct date as [d|]; cbn [date_or_now ret datetime_now update_self get_or];
        unfold saved; now rewrite save_data_run.
    + right. split; [reflexivity|]. eexists. reflexivity.
  - rewrite Z.leb_antisym. destruct (0 <? amount); cbn [negb].
    + left. split; [reflexivity|]. rewrite raise_if_false.
      destruct date as [d|]; cbn [date_or_now ret datetime_now update_self get_or];
        unfold saved; now rewrite save_data_run.
    + right. split; [reflexivity|]. eexists. reflexivity.
  - destruct ((1 <=? day) && (day <=? 31)); cbn [negb andb].
    + rewrite raise_if_false, Z.leb_antisym. destruct (0 <? amount); cbn [negb].
      * left. split; [reflexivity|]. rewrite raise_if_false. cbn [update_self].
        unfold saved; now rewrite save_data_run.
      * right. split; [reflexivity|]. eexists. reflexivity.
    + right. split; [reflexivity|]. eexists. reflexivity.
  - destruct ((1 <=? day) && (day <=? 31)); cbn [negb andb].
    + rewrite raise_if_false, Z.leb_antisym. destruct (0 <? amount); cbn [negb].
      * left. split; [reflexivity|]. rewrite raise_if_false. cbn [update_self].
        unfold saved; now rewrite save_data_run.
      * right. split; [reflexivity|]. eexists. reflexivity.
    + right. split; [reflexivity|]. eexists. reflexivity.
Qed.

Lemma run_add_returns op w :
  fst (run_add op w) = Return tt ->
  accepts op = true /\ snd (run_add op w) = saved (added op w) w.
Proof.
  destruct (run_add_cases op w) as [(Ha & ->)|(_ & e & ->)];
    [auto|discriminate].
Qed.

Lemma saved_self s w : self (saved s w) = s.
Proof. unfold saved. now rewrite save_data_self. Qed.

Lemma saved_clock s w : clock (saved s w) = clock w.
Proof. unfold saved, save_data. cbn. destruct (write_failure w); reflexivity. Qed.

Lemma saved_write_calls s w : write_calls (saved s w) = S (write_calls w).
Proof. unfold saved. now rewrite save_data_writes. Qed.

Lemma added_fields op w :
  initial_balance (added op w) = initial_balance (self w)
  /\ current_balance (added op w) = current_balance (self w)
  /\ exists a b c,
       monthly_incomes (added op w) = monthly_incomes (self w) ++ a
       /\ monthly_expenses (added op w) = monthly_expenses (self w) ++ b
       /\ one_time_transactions (added op w) = one_time_transactions (self w) ++ c
       /\ (List.length a + List.length b + List.length c = 1)%nat.
Proof.
  split; [destruct op; reflexivity|]. split; [destruct op; reflexivity|].
  destruct op as [amount date name color|amount date name color
                 |day amount name color|day amount name color]; cbn [added].
  - exists [], [], [OneTimeTransaction.mk (get_or date (clock w)) amount "income"
                      (str_or name "One-time Income") color].
    cbn. rewrite !app_nil_r. auto.
  - exists [], [], [OneTimeTransaction.mk (get_or date (clock w)) (- amount) "expense"
                      (str_or name "One-time Expense") color].
    cbn. rewrite !app_nil_r. auto.
  - exists [Transaction.mk day amount name color], [], [].
    cbn. rewrite !app_nil_r. auto.
  - exists [], [Transaction.mk day amount name color], [].
    cbn. rewrite !app_nil_r. auto.
Qed.

(** X6. An add operation that passes its guards leaves both balances as
    they are and puts exactly one transaction at the end of exactly one of
    the three lists; with a working disk the data file then holds the whole
    tracker as it stands, after one write and without any output. *)
Theorem successful_add_is_written_through (op : add_operation) (w : World) :
  write_failure w = None ->
  fst (run_add op w) = Return tt ->
  data_file (snd (run_add op w)) = Some (self (snd (run_add op w)))
  /\ write_calls (snd (run_add op w)) = S (write_calls w)
  /\ stdout (snd (run_add op w)) = stdout w
  /\ initial_balance (self (snd (run_add op w))) = initial_balance (self w)
  /\ current_balance (self (snd (run_add op w))) = current_balance (self w)
  /\ exists a b c,
       monthly_incomes (self (snd (run_add op w))) = monthly_incomes (self w) ++ a
       /\ monthly_expenses (self (snd (run_add op w))) = monthly_expenses (self w) ++ b
       /\ one_time_transactions (self (snd (run_add op w)))
          = one_time_transactions (self w) ++ c
       /\ (List.length a + List.length b + List.length c = 1)%nat.
Proof.
  intros Hdisk H. apply run_add_returns in H. destruct H as (_ & ->).
  rewrite saved_self, saved_write_calls.
  split; [unfold saved, save_data; cbn; now rewrite Hdisk|].
  split; [reflexivity|].
  split; [unfold saved, save_data; cbn; now rewrite Hdisk|].
  apply added_fields.
Qed.

Lemma successful_add_is_written_through_witness :
  data_file (snd (run_add (AddExpense 30 None None "red") sample_world))
  = Some (self (snd (run_add (AddExpense 30 None None "red") sample_world)))
  /\ write_calls (snd (run_add (AddExpense 30 None None "red") sample_world)) = 1%nat.
Proof.
  destruct (successful_add_is_written_through
              (AddExpense 30 None None "red") sample_world eq_refl eq_refl)
    as (Hfile & Hcalls & _).
  split; [exact Hfile|exact Hcalls].
Defined.

(** X7. A write that fails does not make an add operation fail:
    [save_data] catches the exception, so the operation returns as usual
    and the tracker in memory has the new transaction; the only trace of
    the failure is one printed line, and the caller is not told that the
    data file was not updated. *)
Theorem failed_write_is_silent (op : add_operation) (w : World) (msg : string) :
  write_failure w = Some msg ->
  accepts op = true ->
  run_add op w = (Return tt, snd (run_add op w))
  /\ self (snd (run_add op w)) = added op w
  /\ self (snd (run_add op w)) <> self w
  /\ stdout (snd (run_add op w)) = stdout w ++ [("Error saving data: " ++ msg)%string].
Proof.
  intros Hdisk Ha.
  destruct (run_add_cases op w) as [(_ & E)|(N & _)]; [|congruence].
  rewrite E. cbn [snd]. split; [reflexivity|].
  rewrite saved_self. split; [reflexivity|]. split.
  - destruct (added_fields op w) as (_ & _ & a & b & c & Hi & He & Ho & Hlen).
    intros Heq. rewrite Heq in Hi, He, Ho.
    apply (f_equal (@List.length _)) in Hi, He, Ho.
    rewrite length_app in Hi, He, Ho. lia.
  - unfold saved, save_data; cbn; rewrite Hdisk. reflexivity.
Qed.

Lemma failed_write_is_silent_witness :
  run_add (AddMonthlyIncome 10 5 "Tip" "green") locked_file_world
  = (Return tt, snd (run_add (AddMonthlyIncome 10 5 "Tip" "green") locked_file_world))
  /\ stdout (snd (run_add (AddMonthlyIncome 10 5 "Tip" "green") locked_file_world))
     = ["Error saving data: Permission denied"%string].
Proof.
  destruct (failed_write_is_silent (AddMonthlyIncome 10 5 "Tip" "green")
              locked_file_world "Permission denied" eq_refl eq_refl)
    as (Hret & _ & _ & Hout).
  split; [exact Hret|exact Hout].
Defined.

(** ** The data-model invariant *)

Lemma accepts_one_time amount : (0 <? amount) = true -> 0 < amount.
Proof. apply Z.ltb_lt. Qed.

Lemma accepts_monthly day amount :
  (1 <=? day) && (day <=? 31) && (0 <? amount) = true ->
  1 <= day <= 31 /\ 0 < amount.
Proof. rewrite !andb_true_iff, !Z.leb_le, Z.ltb_lt. tauto. Qed.

Lemma added_well_formed op w :
  accepts op = true -> well_formed (self w) -> well_formed (added op w).
Proof.
  intros Ha (Hi & He & Ho).
  destruct op as [amount date name color|amount date name color
                 |day amount name color|day amount name color];
    cbn [accepts added] in *; unfold well_formed; cbn.
  - apply accepts_one_time in Ha. repeat split; try assumption.
    apply Forall_app. split; [assumption|].
    constructor; [|constructor]. left. cbn. auto.
  - apply accepts_one_time in Ha. repeat split; try assumption.
    apply Forall_app. split; [assumption|].
    constructor; [|constructor]. right. cbn. split; [reflexivity|lia].
  - apply accepts_monthly in Ha. repeat split; try assumption.
    apply Forall_app. split; [assumption|].
    constructor; [|constructor]. exact Ha.
  - apply accepts_monthly in Ha. repeat split; try assumption.
    apply Forall_app. split; [assumption|].
    constructor; [|constructor]. exact Ha.
Qed.

(** X8. The add operations and [update_initial_balance] keep the invariant
    of the data model, whether they return or raise: every monthly
    transaction has a day in [1,31] and a positive amount, every one-time
    income a positive amount and every one-time expense a negative one. *)
Theorem operations_keep_well_formed (w : World) (op : add_operation) (balance : Z) :
  well_formed (self w) ->
  well_formed (self (snd (run_add op w)))
  /\ well_formed (self (snd (update_initial_balance balance w))).
Proof.
  intros Hw. split.
  - destruct (run_add_cases op w) as [(Ha & ->)|(_ & e & ->)]; cbn [snd].
    + rewrite saved_self. now apply added_well_formed.
    + exact Hw.
  - run_guards. destruct (balance <? 0).
    + rewrite raise_if_true. exact Hw.
    + rewrite raise_if_false. cbn [update_self]. rewrite save_data_self.
      exact Hw.
Qed.

Lemma sample_tracker_well_formed : well_formed sample_tracker.
Proof.
  unfold well_formed. cbn. split; [|split].
  - repeat (constructor; [unfold valid_monthly; cbn; lia|]). constructor.
  - repeat (constructor; [unfold valid_monthly; cbn; lia|]). constructor.
  - constructor; [left; cbn; split; [reflexivity|lia]|].
    constructor; [right; cbn; split; [reflexivity|lia]|].
    constructor; [left; cbn; split; [reflexivity|lia]|]. constructor.
Qed.

Lemma operations_keep_well_formed_witness :
  well_formed (self (snd (run_add (AddExpense 30 None None "red") sample_world)))
  /\ well_formed (self (snd (update_initial_balance 5 sample_world))).
Proof.
  apply (operations_keep_well_formed sample_world (AddExpense 30 None None "red") 5).
  exact sample_tracker_well_formed.
Defined.

(** ** Adding a transaction and the forecast *)

Lemma total_through_le w w' :
  clock w = clock w' ->
  (forall d, signed_total (self w) d <= signed_total (self w') d) ->
  forall n, total_through w n <= total_through w' n.
Proof.
  intros Hc Hs n. induction n as [|n IH]; cbn [total_through]; [lia|].
  replace (date_at w' n) with (date_at w n)
    by (unfold date_at, start_date; now rewrite Hc).
  specialize (Hs (date_at w n)). lia.
Qed.

Lemma ledger_monotone w w' max_days i e :
  clock w = clock w' ->
  initial_balance (self w) = initial_balance (self w') ->
  (forall d, signed_total (self w) d <= signed_total (self w') d) ->
  nth_error (ledger w max_days) i = Some e ->
  exists e', nth_error (ledger w' max_days) i = Some e'
             /\ Entry.date e' = Entry.date e
             /\ Entry.balance e <= Entry.balance e'.
Proof.
  intros Hc Hb Hs H. apply ledger_nth in H. destruct H as (Hi & Hpos & ->).
  assert (Hle : forall j, balance_after w j <= balance_after w' j).
  { intros j. rewrite !balance_after_closed, Hb.
    pose proof (total_through_le w w' Hc Hs (S j)). lia. }
  exists (entry_at w' i). split; [|split].
  - apply ledger_nth. split; [exact Hi|]. split; [|reflexivity].
    intros j Hj. specialize (Hpos j Hj). specialize (Hle j). lia.
  - cbn [entry_at Entry.date]. unfold date_at, start_date. now rewrite Hc.
  - cbn [entry_at Entry.balance]. apply Hle.
Qed.

Lemma sumZ_filter_one {A} (f : A -> Z) (p : A -> bool) (l : list A) (x : A) :
  sumZ (map f (filter p (l ++ [x])))
  = sumZ (map f (filter p l)) + (if p x then f x else 0).
Proof.
  rewrite filter_app, map_app, sumZ_app. cbn [filter].
  destruct (p x); unfold sumZ; cbn; lia.
Qed.

Lemma added_signed_total op w d :
  accepts op = true ->
  if is_income op
  then signed_total (self w) d <= signed_total (added op w) d
  else signed_total (added op w) d <= signed_total (self w) d.
Proof.
  intros Ha.
  destruct op as [amount date name color|amount date name color
                 |day amount name color|day amount name color];
    cbn [accepts added is_income] in *; unfold signed_total;
    cbn [append_one_time append_monthly_income append_monthly_expense
         monthly_incomes monthly_expenses one_time_transactions];
    rewrite sumZ_filter_one.
  - apply accepts_one_time in Ha. cbn [OneTimeTransaction.amount].
    destruct (on_date d _); lia.
  - apply accepts_one_time in Ha. cbn [OneTimeTransaction.amount].
    destruct (on_date d _); lia.
  - apply accepts_monthly in Ha. cbn [Transaction.amount].
    destruct (on_day d _); lia.
  - apply accepts_monthly in Ha. cbn [Transaction.amount].
    destruct (on_day d _); lia.
Qed.

(** X9. Adding an income (one-time or monthly) never shortens the forecast
    and never lowers a balance: every entry of the forecast before the
    operation is still there afterwards, on the same date, with a balance at
    least as high.  Adding an expense works the other way round: every entry
    of the forecast after the operation was there before, with a balance at
    least as high. *)
Theorem add_moves_forecast_one_way (op : add_operation) (w : World)
    (max_days : Z) (i : nat) :
  fst (run_add op w) = Return tt ->
  (is_income op = true ->
     forall e, nth_error (ledger w max_days) i = Some e ->
       exists e', nth_error (ledger (snd (run_add op w)) max_days) i = Some e'
                  /\ Entry.date e' = Entry.date e
                  /\ Entry.balance e <= Entry.balance e')
  /\ (is_income op = false ->
        forall e', nth_error (ledger (snd (run_add op w)) max_days) i = Some e' ->
          exists e, nth_error (ledger w max_days) i = Some e
                    /\ Entry.date e = Entry.date e'
                    /\ Entry.balance e' <= Entry.balance e).
Proof.
  intros H. apply run_add_returns in H. destruct H as (Ha & ->).
  assert (Hb : initial_balance (self (saved (added op w) w))
               = initial_balance (self w))
    by (rewrite saved_self; apply added_fields).
  split; intros Hk e He.
  - apply (ledger_monotone w (saved (added op w) w) max_days i e);
      [now rewrite saved_clock|now rewrite Hb| |exact He].
    intros d. rewrite saved_self.
    pose proof (added_signed_total op w d Ha) as Hs. now rewrite Hk in Hs.
  - apply (ledger_monotone (saved (added op w) w) w max_days i e);
      [now rewrite saved_clock|exact Hb| |exact He].
    intros d. rewrite saved_self.
    pose proof (added_signed_total op w d Ha) as Hs. now rewrite Hk in Hs.
Qed.

Lemma add_moves_forecast_one_way_witness :
  exists e', nth_error (ledger (snd (run_add (AddMonthlyIncome 2 60 "Tip" "green")
                                             sample_world)) 4) 1 = Some e'
             /\ Entry.date e' = Entry.date (entry_at sample_world 1)
             /\ Entry.balance (entry_at sample_world 1) <= Entry.balance e'.
Proof.
  destruct (add_moves_forecast_one_way (AddMonthlyIncome 2 60 "Tip" "green")
              sample_world 4 1 eq_refl) as (Hup & _).
  apply (Hup eq_refl (entry_at sample_world 1)). reflexivity.
Defined.

(** ** Loading and construction *)

Lemma set_default_run w :
  _set_default_transactions w = (Return tt, saved (set_default_lists (self w)) w).
Proof.
  unfold _set_default_transactions, bind. cbn [update_self].
  rewrite save_data_run. reflexivity.
Qed.

Lemma comprehension_accepted {A} (l : list A) :
  comprehension (map Accepted l) = Accepted l.
Proof. induction l as [|x l IH]; cbn; [reflexivity|now rewrite IH]. Qed.

Lemma load_one_time_accepted l s :
  load_one_time (map Accepted l) s
  = (None, mkFinanceTracker (initial_balance s) (current_balance s)
             (monthly_incomes s) (monthly_expenses s)
             (one_time_transactions s ++ l)).
Proof.
  revert s. induction l as [|t l IH]; intros s; cbn [map load_one_time].
  - rewrite app_nil_r. now destruct s.
  - rewrite IH. cbn. now rewrite <- app_assoc.
Qed.

Lemma load_one_time_rejected pre msg rest s :
  load_one_time (map Accepted pre ++ Rejected msg :: rest) s
  = (Some msg, mkFinanceTracker (initial_balance s) (current_balance s)
                 (monthly_incomes s) (monthly_expenses s)
                 (one_time_transactions s ++ pre)).
Proof.
  revert s. induction pre as [|t pre IH]; intros s; cbn [map app load_one_time].
  - rewrite app_nil_r. now destruct s.
  - rewrite IH. cbn. now rewrite <- app_assoc.
Qed.

Lemma load_document_of s s0 : load_document (document_of s) s0 = (None, s).
Proof.
  unfold load_document, document_of. cbn [doc_initial_balance doc_current_balance
    doc_monthly_incomes doc_monthly_expenses doc_one_time_transactions get_or].
  rewrite !comprehension_accepted, load_one_time_accepted. cbn. now destruct s.
Qed.

(** The three ways [load_data] can end. *)
Lemma load_data_from_run f w :
  load_data_from f w
  = match try_block f (self w) with
    | (None, s') =>
        (Return tt, mkWorld s' (clock w) (data_file w) (write_calls w)
                            (write_failure w) (stdout w))
    | (Some msg, s') =>
        (Return tt,
         saved (set_default_lists s')
               (mkWorld s' (clock w) (data_file w) (write_calls w)
                        (write_failure w)
                        (stdout w ++ [("Error loading data: " ++ msg)%string])))
    end.
Proof.
  unfold load_data_from, bind. cbn [get_self].
  destruct (try_block f (self w)) as [[msg|] s']; cbn [update_self print];
    [|reflexivity].
  rewrite set_default_run. reflexivity.
Qed.

Lemma init_from_run f ib w :
  init_from f ib w
  = let w0 := mkWorld (mkFinanceTracker ib ib [] [] []) (clock w) (data_file w)
                      (write_calls w) (write_failure w) (stdout w) in
    let w1 := snd (load_data_from f w0) in
    if is_empty (monthly_incomes (self w1)) && is_empty (monthly_expenses (self w1))
    then (Return tt, saved (set_default_lists (self w1)) w1)
    else (Return tt, w1).
Proof.
  unfold init_from, bind. cbn [update_self]. cbv zeta.
  rewrite load_data_from_run.
  destruct (try_block f _) as [[msg|] s']; cbn [snd get_self];
    match goal with
    | |- context [if ?c then _ else _] => destruct c
    end; rewrite ?set_default_run; reflexivity.
Qed.

(** X10. Constructing a tracker never raises, whatever the data file holds
    and whether or not the disk accepts writes, and the tracker it leaves
    always has a monthly income or a monthly expense: one with neither gets
    the default transactions. *)
Theorem init_never_raises_and_has_monthly (f : file_content) (ib : Z) (w : World) :
  fst (init_from f ib w) = Return tt
  /\ (monthly_incomes (self (snd (init_from f ib w))) <> []
      \/ monthly_expenses (self (snd (init_from f ib w))) <> []).
Proof.
  rewrite init_from_run. cbv zeta.
  destruct (is_empty _ && is_empty _) eqn:E; cbn [fst snd].
  - split; [reflexivity|]. rewrite saved_self. left. discriminate.
  - split; [reflexivity|]. apply andb_false_iff in E.
    destruct E as [E|E]; [left|right]; intros H; rewrite H in E; discriminate.
Qed.

(** X11. Without a usable data file (none, or one that cannot be read or
    decoded) the new tracker has the given initial balance as both
    balances, the default monthly transactions (income Pension on the 21st,
    expenses Rent on the 14th and Internet on the 22nd) and no one-time
    transaction; with a working disk this tracker is in the data file when
    the constructor returns. *)
Theorem init_without_usable_file (f : file_content) (ib : Z) (w : World) :
  f = NoFile \/ (exists msg, f = Broken msg) ->
  self (snd (init_from f ib w))
  = mkFinanceTracker ib ib default_incomes default_expenses []
  /\ (write_failure w = None ->
        data_file (snd (init_from f ib w)) = Some (self (snd (init_from f ib w)))).
Proof.
  intros [->|[msg ->]]; rewrite init_from_run; cbv zeta;
    rewrite load_data_from_run; cbn [try_block snd self].
  - cbn [monthly_incomes monthly_expenses is_empty andb snd].
    rewrite saved_self. split; [reflexivity|].
    intros Hd. unfold saved, save_data. cbn. now rewrite Hd.
  - rewrite !saved_self.
    cbn [set_default_lists monthly_incomes monthly_expenses default_incomes
         is_empty andb snd].
    rewrite saved_self. split; [reflexivity|].
    intros Hd. unfold saved, save_data. cbn. now rewrite Hd.
Qed.

Lemma init_without_usable_file_witness :
  self (snd (init_from (Broken "Expecting value") 0 (world_of rent_tracker jan1)))
  = mkFinanceTracker 0 0 default_incomes default_expenses [].
Proof.
  apply (init_without_usable_file (Broken "Expecting value") 0
           (world_of rent_tracker jan1)).
  right. eexists. reflexivity.
Defined.

(** X12. Constructing a tracker over a file written by [save_data] restores
    the five saved fields, whatever initial balance is passed, and neither
    writes nor prints, provided the saved tracker has a monthly income or a
    monthly expense; when it has neither, the default monthly transactions
    take the place of the two empty lists. *)
Theorem restart_restores_saved_state (w : World) (s : FinanceTracker) (ib : Z) :
  data_file w = Some s ->
  (monthly_incomes s <> [] \/ monthly_expenses s <> [] ->
     __init__ ib w
     = (Return tt, mkWorld s (clock w) (data_file w) (write_calls w)
                           (write_failure w) (stdout w)))
  /\ (monthly_incomes s = [] -> monthly_expenses s = [] ->
        self (snd (__init__ ib w)) = set_default_lists s).
Proof.
  intros Hf. unfold __init__, file_of. rewrite Hf, init_from_run. cbv zeta.
  rewrite load_data_from_run.
  cbn [try_block self]. rewrite load_document_of. cbn [snd self]. split.
  - intros Hne.
    assert (E : is_empty (monthly_incomes s) && is_empty (monthly_expenses s) = false).
    { apply andb_false_iff.
      destruct Hne as [H|H]; [left|right];
        [destruct (monthly_incomes s)|destruct (monthly_expenses s)];
        cbn; congruence. }
    rewrite E. cbn. rewrite ?Hf. reflexivity.
  - intros Hi He. rewrite Hi, He. cbn [is_empty andb snd].
    rewrite saved_self. reflexivity.
Qed.

Lemma restart_restores_saved_state_witness :
  __init__ 77 next_day_world
  = (Return tt, mkWorld rent_tracker (clock next_day_world) (Some rent_tracker)
                        3 None []).
Proof.
  destruct (restart_restores_saved_state next_day_world rent_tracker 77 eq_refl)
    as (Hkeep & _).
  apply Hkeep. right. discriminate.
Defined.

(** X13. When the file decodes but one of its one-time transactions is
    rejected, loading stops there without raising: the balances of the file
    and the one-time transactions read before the rejected one are kept,
    the monthly lists just read are replaced by the defaults, and the error
    is printed. *)
Theorem rejected_one_time_falls_back (data : Document) (w : World)
    (incomes expenses : list Transaction.t)
    (before : list OneTimeTransaction.t) (msg : string)
    (rest : list (parsed OneTimeTransaction.t)) :
  doc_monthly_incomes data = Some (map Accepted incomes) ->
  doc_monthly_expenses data = Some (map Accepted expenses) ->
  doc_one_time_transactions data
  = Some (map Accepted before ++ Rejected msg :: rest) ->
  fst (load_data_from (Json data) w) = Return tt
  /\ self (snd (load_data_from (Json data) w))
     = mkFinanceTracker
         (get_or (doc_initial_balance data) (initial_balance (self w)))
         (get_or (doc_current_balance data) (current_balance (self w)))
         default_incomes default_expenses before
  /\ stdout (snd (load_data_from (Json data) w))
     = (stdout w ++ [("Error loading data: " ++ msg)%string])
       ++ match write_failure w with
          | None => []
          | Some m => [("Error saving data: " ++ m)%string]
          end.
Proof.
  intros Hi He Ho. rewrite load_data_from_run.
  cbn [try_block]. unfold load_document. rewrite Hi, He, Ho.
  cbn [get_or]. rewrite !comprehension_accepted, load_one_time_rejected.
  cbn [fst snd initial_balance current_balance monthly_incomes monthly_expenses
       one_time_transactions app].
  split; [reflexivity|]. rewrite saved_self. split; [reflexivity|].
  unfold saved, save_data. cbn.
  destruct (write_failure w); cbn; [reflexivity|now rewrite app_nil_r].
Qed.

Lemma rejected_one_time_falls_back_witness :
  self (snd (load_data_from (Json damaged_document) sample_world))
  = mkFinanceTracker 250 1000 default_incomes default_expenses
      [OneTimeTransaction.mk (at_day 3) 500 "income" "Gift" "green"].
Proof.
  apply (rejected_one_time_falls_back damaged_document sample_world
           [Transaction.mk 1 10 "Pay" "green"] []
           [OneTimeTransaction.mk (at_day 3) 500 "income" "Gift" "green"]
           "Invalid isoformat string: 'tomorrow'"
           [Accepted (OneTimeTransaction.mk (at_day 4) 70 "income" "Sale" "green")]);
    reflexivity.
Defined.

(** ** The callback *)

Lemma update_initial_balance_outcome balance w :
  (exists w', update_initial_balance balance w = (Return tt, w'))
  \/ (exists msg, update_initial_balance balance w = (Raise (ValueError msg), w)).
Proof.
  run_guards. destruct (balance <? 0).
  - right. rewrite raise_if_true. eauto.
  - left. rewrite raise_if_false. cbn [update_self]. rewrite save_data_run. eauto.
Qed.

Lemma run_add_outcome op w :
  (exists w', run_add op w = (Return tt, w'))
  \/ (exists msg, run_add op w = (Raise (ValueError msg), w)).
Proof.
  destruct (run_add_cases op w) as [(_ & ->)|(_ & [msg] & ->)]; eauto.
Qed.

(** The [try] block either returns, or raises with the world as it was. *)
Lemma dispatch_outcome strptime button i w :
  (exists w', dispatch strptime button i w = (Return tt, w'))
  \/ (exists msg, dispatch strptime button i w = (Raise (ValueError msg), w)).
Proof.
  unfold dispatch.
  destruct (if String.eqb button "update-balance-button" then _ else _) as [b|];
    [apply update_initial_balance_outcome|].
  destruct (if String.eqb button "add-monthly-income-button" then _ else _)
    as [day|], (truthy_number (income_amount i)) as [amount|],
       (truthy_string (income_name i)) as [name|];
    try apply (run_add_outcome (AddMonthlyIncome day amount name "green"));
  destruct (if String.eqb button "add-monthly-expense-button" then _ else _)
    as [day'|], (truthy_number (expense_amount i)) as [amount'|],
       (truthy_string (expense_name i)) as [name'|];
    try apply (run_add_outcome (AddMonthlyExpense day' amount' name' "red"));
  destruct (if String.eqb button "add-transaction-button" then _ else _)
    as [ds|], (truthy_number (transaction_amount i)) as [a|],
       (truthy_string (transaction_name i)) as [n|];
    try (left; eexists; reflexivity);
  (destruct (strptime ds) as [d|msg]; [|right; eexists; reflexivity];
   destruct (type_is_income (transaction_type i));
   [apply (run_add_outcome (AddIncome a (Some d) (Some n) "green"))
   |apply (run_add_outcome (AddExpense a (Some d) (Some n) "red"))]).
Qed.

(** X14. The callback never raises, whatever was clicked and typed: it
    always returns the data frame of the 180-day forecast of the tracker as
    the call leaves it, and that data frame has at least one row. *)
Theorem update_forecast_always_returns (strptime : string -> parsed Datetime.t)
    (triggered : list string) (i : Inputs) (w : World) :
  exists r rows,
    fst (update_forecast strptime triggered i w) = Return (r :: rows)
    /\ r :: rows
       = _create_forecast_dataframe
           (ledger (snd (update_forecast strptime triggered i w)) 180).
Proof.
  unfold update_forecast, bind, try_except.
  destruct (dispatch_outcome strptime (button_id triggered) i w)
    as [[w' ->]|[msg ->]]; cbn [print];
    rewrite generate_daily_forecast_run; cbn [fst snd];
    match goal with
    | |- context [ledger ?x 180] =>
        destruct (forecast_rows_nonempty x 180 ltac:(lia)) as (r & rows & -> & _)
    end; eauto.
Qed.

(** X15. When the operation chosen by the click is rejected, the callback
    prints one line, [Validation error:] followed by the message, and
    leaves the tracker, the data file and its write count as they were. *)
Theorem rejected_input_is_reported (strptime : string -> parsed Datetime.t)
    (triggered : list string) (i : Inputs) (w : World) (msg : string) :
  fst (dispatch strptime (button_id triggered) i w) = Raise (ValueError msg) ->
  snd (update_forecast strptime triggered i w)
  = mkWorld (self w) (clock w) (data_file w) (write_calls w) (write_failure w)
            (stdout w ++ [("Validation error: " ++ msg)%string]).
Proof.
  intros H. unfold update_forecast, bind, try_except.
  destruct (dispatch_outcome strptime (button_id triggered) i w)
    as [[w' E]|[msg' E]]; rewrite E in *; cbn [fst] in H; [discriminate|].
  injection H as ->. cbn [print]. rewrite generate_daily_forecast_run.
  reflexivity.
Qed.

Lemma rejected_input_is_reported_witness :
  snd (update_forecast sample_strptime ["add-monthly-income-button.n_clicks"%string]
                       day_40_form sample_world)
  = mkWorld sample_tracker jan1 None 0 None
            ["Validation error: Day must be between 1 and 31"%string].
Proof.
  apply (rejected_input_is_reported sample_strptime
           ["add-monthly-income-button.n_clicks"%string] day_40_form sample_world
           "Day must be between 1 and 31").
  reflexivity.
Defined.

(** Evaluates the comparisons of button names. *)
Ltac eval_buttons :=
  cbn -[truthy_number truthy_string add_monthly_income add_monthly_expense
        add_income add_expense update_initial_balance].

(** X16. When no known button was clicked, or a field required by the
    clicked button is empty ([None], the number 0 or the empty string; for
    the balance button only [None]), the callback changes and prints
    nothing and only returns the forecast: an amount of 0 typed in a form is
    ignored, not rejected. *)
Theorem incomplete_form_is_ignored (strptime : string -> parsed Datetime.t)
    (triggered : list string) (i : Inputs) (w : World) :
  required_fields_present (button_id triggered) i = false ->
  update_forecast strptime triggered i w
  = (Return (_create_forecast_dataframe (ledger w 180)), w).
Proof.
  intros H.
  assert (E : dispatch strptime (button_id triggered) i w = (Return tt, w)).
  { revert H. unfold required_fields_present, dispatch.
    generalize (button_id triggered) as b. intros b.
    destruct (String.eqb_spec b "update-balance-button") as [->|N1].
    { eval_buttons. destruct (initial_balance_value i); [discriminate|reflexivity]. }
    destruct (String.eqb_spec b "add-monthly-income-button") as [->|N2].
    { eval_buttons.
      destruct (truthy_number (income_day i)), (truthy_number (income_amount i)),
               (truthy_string (income_name i)); try discriminate; reflexivity. }
    destruct (String.eqb_spec b "add-monthly-expense-button") as [->|N3].
    { eval_buttons.
      destruct (truthy_number (expense_day i)), (truthy_number (expense_amount i)),
               (truthy_string (expense_name i)); try discriminate; reflexivity. }
    destruct (String.eqb_spec b "add-transaction-button") as [->|N4].
    { eval_buttons.
      destruct (truthy_string (transaction_date i)),
               (truthy_number (transaction_amount i)),
               (truthy_string (transaction_name i)); try discriminate; reflexivity. }
    reflexivity. }
  unfold update_forecast, bind, try_except. rewrite E.
  rewrite generate_daily_forecast_run. reflexivity.
Qed.

Lemma incomplete_form_is_ignored_witness :
  update_forecast sample_strptime ["add-transaction-button.n_clicks"%string]
                  zero_amount_form sample_world
  = (Return (_create_forecast_dataframe (ledger sample_world 180)), sample_world).
Proof.
  apply (incomplete_form_is_ignored sample_strptime
           ["add-transaction-button.n_clicks"%string] zero_amount_form sample_world).
  reflexivity.
Defined.

(** ** Construction, undated transactions and the forecast *)

Lemma init_no_file ib w :
  snd (init_from NoFile ib w)
  = saved (mkFinanceTracker ib ib default_incomes default_expenses [])
          (mkWorld (mkFinanceTracker ib ib [] [] []) (clock w) (data_file w)
                   (write_calls w) (write_failure w) (stdout w)).
Proof.
  rewrite init_from_run. cbv zeta. rewrite load_data_from_run. reflexivity.
Qed.

Lemma first_entry w max_days :
  0 < max_days ->
  nth_error (ledger w max_days) 0 = Some (entry_at w 0)
  /\ Entry.balance (entry_at w 0)
     = initial_balance (self w) + signed_total (self w) (start_date w).
Proof.
  intros H. split.
  - apply ledger_nth. split; [lia|]. split; [intros j Hj; lia|reflexivity].
  - cbn [entry_at Entry.balance]. rewrite balance_after_closed.
    cbn [total_through]. replace (date_at w 0) with (start_date w) by reflexivity.
    lia.
Qed.

(** X17. A tracker constructed without a data file and with an initial
    balance that is not positive projects a single day, on any day of the
    month but the 21st (the day of the default income): the first balance
    is already [<= 0]. *)
Theorem fresh_tracker_forecast_stops (ib : Z) (w : World) (max_days : Z) :
  ib <= 0 ->
  0 < max_days ->
  Datetime.day (clock w) <> 21 ->
  List.length (ledger (snd (init_from NoFile ib w)) max_days) = 1%nat.
Proof.
  intros Hib Hmax Hday. rewrite init_no_file.
  set (w' := saved _ _).
  destruct (first_entry w' max_days Hmax) as [H0 Hb].
  apply (ledger_stops w' max_days 0 _ H0). rewrite Hb.
  subst w'. rewrite saved_self.
  replace (start_date (saved _ _)) with (start_date w)
    by (unfold start_date; now rewrite saved_clock).
  unfold signed_total, on_day.
  cbn [initial_balance monthly_incomes monthly_expenses one_time_transactions
       default_incomes default_expenses filter Transaction.day map].
  replace (Datetime.day (start_date w)) with (Datetime.day (clock w))
    by reflexivity.
  destruct (Z.eqb_spec 21 (Datetime.day (clock w))) as [E|_]; [congruence|].
  destruct (14 =? Datetime.day (clock w)), (22 =? Datetime.day (clock w));
    cbn; lia.
Qed.

Lemma fresh_tracker_forecast_stops_witness :
  List.length (ledger (snd (init_from NoFile 0 sample_world)) 180) = 1%nat.
Proof.
  apply (fresh_tracker_forecast_stops 0 sample_world 180).
  - lia.
  - lia.
  - vm_compute. discriminate.
Defined.

Lemma on_date_today w t :
  date_key t = Datetime.date (clock w) -> on_date (start_date w) t = true.
Proof. intros H. unfold on_date. rewrite H. apply eqb_refl. Qed.

Lemma ltb_leb_trans a b c :
  Date.ltb a b = true -> Date.leb b c = true -> Date.ltb a c = true.
Proof.
  unfold Date.leb. rewrite negb_true_iff. intros H1 H2.
  destruct (Date.ltb b c) eqn:E; [exact (ltb_trans _ _ _ H1 E)|].
  now rewrite <- (ltb_total _ _ E H2).
Qed.

(** The transactions of a date after one more one-time transaction was
    entered: the new one comes last on its own date, and nowhere else. *)
Lemma day_transactions_appended s t d :
  day_transactions (append_one_time t s)
                   (sorted date_key (one_time_transactions s ++ [t])) d
  = day_transactions s (sorted date_key (one_time_transactions s)) d
    ++ (if on_date d t then [one_time_dict t] else []).
Proof.
  rewrite !day_transactions_eq.
  cbn [append_one_time monthly_incomes monthly_expenses].
  unfold on_date at 1 3.
  rewrite !(sorted_filter date_key (Datetime.date d)).
  fold (on_date d). rewrite filter_app, map_app. cbn [filter].
  change (Date.eqb (date_key t) (Datetime.date d)) with (on_date d t).
  destruct (on_date d t); cbn [map]; now rewrite <- !app_assoc.
Qed.

(** Two worlds whose forecasts apply the same transactions day by day, from
    the same initial balance and clock, have the same ledger. *)
Lemma ledger_ext w w' max_days :
  clock w = clock w' ->
  initial_balance (self w) = initial_balance (self w') ->
  (forall i, applied_at w i = applied_at w' i) ->
  ledger w max_days = ledger w' max_days.
Proof.
  intros Hc Hb Ha.
  assert (Hbal : forall i, balance_after w i = balance_after w' i).
  { induction i as [|i IH]; cbn [balance_after]; rewrite Ha, ?Hb, ?IH; reflexivity. }
  assert (He : forall i, entry_at w i = entry_at w' i).
  { intros i. unfold entry_at, date_at, start_date. now rewrite Hc, Ha, Hbal. }
  apply nth_error_ext. intros n.
  destruct (nth_error (ledger w max_days) n) as [e|] eqn:E;
    destruct (nth_error (ledger w' max_days) n) as [e'|] eqn:E';
    try reflexivity.
  - apply ledger_nth in E, E'. destruct E as (_ & _ & ->), E' as (_ & _ & ->).
    now rewrite He.
  - apply ledger_nth in E. destruct E as (Hn & Hpos & _).
    rewrite (proj2 (ledger_nth w' max_days n (entry_at w' n))) in E';
      [discriminate|].
    split; [exact Hn|]. split; [|reflexivity].
    intros j Hj. rewrite <- Hbal. now apply Hpos.
  - apply ledger_nth in E'. destruct E' as (Hn & Hpos & _).
    rewrite (proj2 (ledger_nth w max_days n (entry_at w n))) in E;
      [discriminate|].
    split; [exact Hn|]. split; [|reflexivity].
    intros j Hj. rewrite Hbal. now apply Hpos.
Qed.

(** A forecast over a tracker with one more one-time transaction [t],
    against the forecast without it at the same clock. *)
Lemma appended_one_time_forecast w0 w1 t max_days :
  clock w1 = clock w0 ->
  self w1 = append_one_time t (self w0) ->
  (date_key t = Datetime.date (clock w0) -> 0 < max_days ->
     nth_error (ledger w0 max_days) 0 = Some (entry_at w0 0)
     /\ nth_error (ledger w1 max_days) 0 = Some (entry_at w1 0)
     /\ Entry.transactions (entry_at w1 0)
        = Entry.transactions (entry_at w0 0) ++ [one_time_dict t]
     /\ Entry.balance (entry_at w1 0)
        = Entry.balance (entry_at w0 0) + OneTimeTransaction.amount t)
  /\ (Date.ltb (date_key t) (Datetime.date (clock w0)) = true ->
        ledger w1 max_days = ledger w0 max_days).
Proof.
  intros Hc Hs.
  assert (Happ : forall i,
             applied_at w1 i
             = applied_at w0 i
               ++ (if on_date (date_at w0 i) t then [one_time_dict t] else [])).
  { intros i. unfold applied_at, sorted_transactions, date_at, start_date.
    rewrite Hc, Hs. cbn [append_one_time one_time_transactions].
    apply day_transactions_appended. }
  split.
  - intros Hd Hmax.
    destruct (first_entry w0 max_days Hmax) as [H0 _].
    destruct (first_entry w1 max_days Hmax) as [H1 _].
    assert (Htoday : on_date (date_at w0 0) t = true)
      by (now apply on_date_today).
    specialize (Happ O). rewrite Htoday in Happ.
    split; [exact H0|]. split; [exact H1|].
    cbn [entry_at Entry.transactions Entry.balance balance_after].
    split; [exact Happ|].
    rewrite Happ, Hs. cbn [append_one_time initial_balance].
    unfold update_balance. rewrite fold_left_app. reflexivity.
  - intros Hpast. apply ledger_ext.
    + exact Hc.
    + rewrite Hs. reflexivity.
    + intros i. rewrite Happ.
      assert (Hoff : on_date (date_at w0 i) t = false).
      { unfold on_date. destruct (Date.eqb _ _) eqn:E; [|reflexivity].
        apply eqb_eq in E.
        assert (Hlt : Date.ltb (date_key t) (Datetime.date (date_at w0 i)) = true).
        { apply (ltb_leb_trans _ (Datetime.date (clock w0))); [exact Hpast|].
          rewrite date_at_date.
          apply (add_days_leb (Datetime.date (clock w0)) 0 i). lia. }
        rewrite E, ltb_irrefl in Hlt. discriminate. }
      rewrite Hoff. apply app_nil_r.
Qed.

Lemma undated_add_run (income : bool) amount name color w :
  0 < amount ->
  snd ((if income then add_income amount None name color
        else add_expense amount None name color) w)
  = saved (added (if income then AddIncome amount None name color
                  else AddExpense amount None name color) w) w.
Proof.
  intros Ha. apply Z.ltb_lt in Ha.
  destruct income.
  - destruct (run_add_cases (AddIncome amount None name color) w)
      as [(_ & E)|(N & _)]; [|cbn in N; congruence].
    cbn [run_add] in E. now rewrite E.
  - destruct (run_add_cases (AddExpense amount None name color) w)
      as [(_ & E)|(N & _)]; [|cbn in N; congruence].
    cbn [run_add] in E. now rewrite E.
Qed.

(** X18. A one-time income or expense added without a date is dated at the
    clock reading of the add.  A forecast computed on that same calendar
    day, as the callback does right after the add, has it as the last
    transaction of the first entry, whose balance is the first balance
    without it plus the income or minus the expense.  A forecast computed
    on a later day is the one the tracker would give without the
    transaction. *)
Theorem undated_transaction_counts_on_its_day (amount : Z) (name : option string)
    (color : string) (w : World) (later : Datetime.t) (max_days : Z) :
  0 < amount ->
  0 < max_days ->
  (Datetime.date later = Datetime.date (clock w) ->
     (exists e0 e,
        nth_error (ledger (at_clock later w) max_days) 0 = Some e0
        /\ nth_error (ledger (at_clock later (snd (add_income amount None name color w)))
                             max_days) 0 = Some e
        /\ Entry.transactions e
           = Entry.transactions e0
             ++ [DayTransaction.mk "income" (str_or name "One-time Income")
                                   amount color]
        /\ Entry.balance e = Entry.balance e0 + amount)
     /\ (exists e0 e,
           nth_error (ledger (at_clock later w) max_days) 0 = Some e0
           /\ nth_error (ledger (at_clock later (snd (add_expense amount None name color w)))
                                max_days) 0 = Some e
           /\ Entry.transactions e
              = Entry.transactions e0
                ++ [DayTransaction.mk "expense" (str_or name "One-time Expense")
                                      (- amount) color]
           /\ Entry.balance e = Entry.balance e0 - amount))
  /\ (Date.ltb (Datetime.date (clock w)) (Datetime.date later) = true ->
        ledger (at_clock later (snd (add_income amount None name color w))) max_days
        = ledger (at_clock later w) max_days
        /\ ledger (at_clock later (snd (add_expense amount None name color w))) max_days
           = ledger (at_clock later w) max_days).
Proof.
  intros Ha Hmax.
  pose proof (undated_add_run true amount name color w Ha) as Ei.
  pose proof (undated_add_run false amount name color w Ha) as Ee.
  cbv iota in Ei, Ee. rewrite Ei, Ee.
  set (ti := OneTimeTransaction.mk (clock w) amount "income"
               (str_or name "One-time Income") color).
  set (te := OneTimeTransaction.mk (clock w) (- amount) "expense"
               (str_or name "One-time Expense") color).
  destruct (appended_one_time_forecast (at_clock later w)
              (at_clock later (saved (added (AddIncome amount None name color) w) w))
              ti max_days eq_refl)
    as [Hi_today Hi_past];
    [cbn [at_clock self]; now rewrite saved_self|].
  destruct (appended_one_time_forecast (at_clock later w)
              (at_clock later (saved (added (AddExpense amount None name color) w) w))
              te max_days eq_refl)
    as [He_today He_past];
    [cbn [at_clock self]; now rewrite saved_self|].
  split.
  - intros Hd. split.
    + destruct (Hi_today (eq_sym Hd) Hmax) as (H0 & H1 & Ht & Hb).
      do 2 eexists. split; [exact H0|]. split; [exact H1|].
      split; [exact Ht|exact Hb].
    + destruct (He_today (eq_sym Hd) Hmax) as (H0 & H1 & Ht & Hb).
      do 2 eexists. split; [exact H0|]. split; [exact H1|].
      split; [exact Ht|]. rewrite Hb. cbn. lia.
  - intros Hlate. split; [now apply Hi_past|now apply He_past].
Qed.

Lemma undated_transaction_counts_on_its_day_witness :
  ledger (at_clock (at_day 2) (snd (add_income 25 None None "green" sample_world))) 4
  = ledger (at_clock (at_day 2) sample_world) 4.
Proof.
  destruct (undated_transaction_counts_on_its_day 25 None "green" sample_world
              (at_day 2) 4 ltac:(lia) ltac:(lia)) as (_ & Hlate).
  apply Hlate. reflexivity.
Defined.
